(** * CanvasToNotion: the reconciliation pass and the credential store

    A shallow embedding of [src/index.ts]: the diff between the Canvas
    assignments and the pages of the Notion database (the body of the main
    script, [getExistingAssignments], [assignmentToNewPage],
    [assignmentToUpdatedPage]) and the three credential getters
    ([getNotionKey], [getCanvasKey], [getCanvasUrl]).

    Conventions of the embedding.
    - A JavaScript [number] that holds an id is an integer, a [Z]; an optional
      or nullable field is an [option] ([None] stands for [undefined] and for
      [null], which the code never tells apart: it only uses [??], [?.] and
      truthiness on them).
    - [Number.prototype.toString] on an integer is its decimal numeral,
      stdpp's [pretty].
    - [new Date().toISOString()] reads the wall clock.  The clock is a
      function from the number of readings made so far to the text of the
      reading, and the code that reads it threads that counter.
    - A thrown exception is the [Throw] result. *)

From Stdlib Require Import ZArith List Ascii String Bool.
From stdpp Require Import base option list strings gmap pretty.

Import ListNotations.
Local Open Scope string_scope.
Local Open Scope Z_scope.
Local Open Scope list_scope.

(** ** JavaScript values *)

(** [Number.prototype.toString()] of an integer. *)
Definition Number_toString (n : Z) : string := pretty n.

(** The exceptions the modelled code can raise. *)
Inductive JsError : Type :=
| TypeError   (** a property read on [undefined] *)
| ENOENT      (** [fs.writeFileSync] below a directory that does not exist *)
| PromptRejected. (** the promise of [inquirer.prompt] rejected *)

Inductive result (A : Type) : Type :=
| Ok (a : A)
| Throw (e : JsError).
Arguments Ok {A} a.
Arguments Throw {A} e.

(** [Array.prototype.includes] on an array of strings. *)
Definition includes (l : list string) (s : string) : bool :=
  existsb (String.eqb s) l.

(** Truthiness of a [number | null]: [null] and [0] are falsy. *)
Definition truthy_number (n : option Z) : bool :=
  match n with
  | Some z => negb (z =? 0)
  | None => false
  end.

(** ** The Canvas side: [Assignment] of api-canvas-ts (the fields read) *)

Module Assignment.
Record t : Type := mk {
  id : option Z;
  name : option string;
  due_at : option string;
  course_id : option Z;
  html_url : option string
}.
End Assignment.

(** ** The Notion side *)

(** A property value of a page as the API returns it, discriminated by its
    [type].  The five kinds of the database schema of [newDb] and two of the
    other kinds a database can have. *)
Inductive PropertyValue : Type :=
| PTitle (plain_text : string)
| PDate (start : option string)
| PNumber (number : option Z)
| PRichText (content : string)
| PUrl (url : option string)
| PSelect (option_name : option string)
| PCheckbox (checked : bool).

Inductive PropertyType : Type :=
| TTitle | TDate | TNumber | TRichText | TUrl | TSelect | TCheckbox.

Definition property_type (v : PropertyValue) : PropertyType :=
  match v with
  | PTitle _ => TTitle
  | PDate _ => TDate
  | PNumber _ => TNumber
  | PRichText _ => TRichText
  | PUrl _ => TUrl
  | PSelect _ => TSelect
  | PCheckbox _ => TCheckbox
  end.

(** An element of [pages.results] of [notion.databases.query]: a full page
    (it has [properties]) or a partial one (it has not). *)
Inductive QueryResult : Type :=
| FullPage (id : string) (properties : gmap string PropertyValue)
| PartialPage (id : string).

Definition page_id_of (r : QueryResult) : string :=
  match r with
  | FullPage i _ => i
  | PartialPage i => i
  end.

(** [Object.hasOwn(page, "properties")] *)
Definition hasOwn_properties (r : QueryResult) : bool :=
  match r with
  | FullPage _ _ => true
  | PartialPage _ => false
  end.

(** An element of [assignmentIds], the lookup the matching uses. *)
Record AssignmentObj : Type := {
  assignmentId : string;
  pageId : string
}.

Record ExistingAssignments : Type := {
  pageIds : list string;
  assignmentIds : list AssignmentObj
}.

(** The payload of a page creation: the object [assignmentToNewPage]
    returns, one field per key. *)
Module NewPage.
Record t : Type := mk {
  Name : string;            (** [Name.title[0].text.content] *)
  Due_Date : string;        (** ["Due Date"].date.start *)
  Assignment_Id : option Z; (** ["Assignment Id"].number; [assignment.id as number] *)
  Subject_Id : string;      (** ["Subject Id"].rich_text[0].text.content *)
  Assignment_URL : option string (** ["Assignment URL"].url *)
}.

(** The same object as the [properties] of a request. *)
Definition to_properties (p : t) : gmap string PropertyValue :=
  {[ "Name" := PTitle (Name p);
     "Due Date" := PDate (Some (Due_Date p));
     "Assignment Id" := PNumber (Assignment_Id p);
     "Subject Id" := PRichText (Subject_Id p);
     "Assignment URL" := PUrl (Assignment_URL p) ]}.
End NewPage.

(** The object [assignmentToUpdatedPage] returns. *)
Module UpdatedPage.
Record props : Type := mk_props {
  Due_Date : string;             (** ["Due Date"].date.start *)
  Assignment_URL : option string (** ["Assignment URL"].url *)
}.
Record t : Type := mk {
  page_id : string;
  properties : props
}.

Definition to_properties (p : props) : gmap string PropertyValue :=
  {[ "Due Date" := PDate (Some (Due_Date p));
     "Assignment URL" := PUrl (Assignment_URL p) ]}.
End UpdatedPage.

(** The arguments of [notion.pages.create] and [notion.pages.update]. *)
Record CreatePageParameters : Type := {
  parent_database_id : string;
  create_properties : gmap string PropertyValue
}.

Record UpdatePageParameters : Type := {
  update_page_id : string;
  update_properties : gmap string PropertyValue
}.

(** ** [getExistingAssignments] *)

(** The body of the [for] loop over [pagesWithProperties]: [push] appends. *)
Definition push_existing (acc : list AssignmentObj) (page : QueryResult)
  : list AssignmentObj :=
  match page with
  | FullPage pid props =>
      match props !! "Assignment Id" with
      | Some (PNumber n) =>
          match n with
          | Some z =>
              if truthy_number n
              then acc ++ [ {| assignmentId := Number_toString z; pageId := pid |} ]
              else acc
          | None => acc
          end
      | Some _ => acc   (* [type !== "number"]: continue *)
      | None => acc     (* [assignmentIdProperty?.type] is [undefined]: continue *)
      end
  | PartialPage _ => acc
  end.

Definition getExistingAssignments (results : list QueryResult) : ExistingAssignments :=
  let pagesWithProperties := List.filter hasOwn_properties results in
  {| pageIds := List.map page_id_of pagesWithProperties;
     assignmentIds := fold_left push_existing pagesWithProperties [] |}.

(** ** Computations that read the clock and may throw *)

Definition M (A : Type) : Type := nat -> result (A * nat).

Definition ret {A} (a : A) : M A := fun k => Ok (a, k).

Definition bind {A B} (m : M A) (f : A -> M B) : M B :=
  fun k => match m k with
           | Ok (a, k') => f a k'
           | Throw e => Throw e
           end.

Definition throw {A} (e : JsError) : M A := fun _ => Throw e.

Notation "'let*' x ':=' m 'in' f" := (bind m (fun x => f))
  (at level 10, x name, m at level 100, f at level 200).

(** [Array.prototype.map] and [filter] with such a callback, left to right. *)
Fixpoint mapM {A B} (f : A -> M B) (l : list A) : M (list B) :=
  match l with
  | [] => ret []
  | x :: r =>
      let* y := f x in
      let* ys := mapM f r in
      ret (y :: ys)
  end.

Fixpoint filterM {A} (p : A -> M bool) (l : list A) : M (list A) :=
  match l with
  | [] => ret []
  | x :: r =>
      let* b := p x in
      let* ys := filterM p r in
      ret (if b then x :: ys else ys)
  end.

Section Reconciliation.

(** [clock k] is the text of the [k]-th evaluation of
    [new Date().toISOString()] in the run. *)
Variable clock : nat -> string.

Definition Date_now_toISOString : M string := fun k => Ok (clock k, S k).

(** [x ?? new Date().toISOString()]: the clock is read only when [x] is
    nullish. *)
Definition or_now (x : option string) : M string :=
  match x with
  | Some d => ret d
  | None => Date_now_toISOString
  end.

Definition assignmentToNewPage (assignment : Assignment.t) : M NewPage.t :=
  let* start := or_now (Assignment.due_at assignment) in
  ret {| NewPage.Name := default "Untitled" (Assignment.name assignment);
         NewPage.Due_Date := start;
         NewPage.Assignment_Id := Assignment.id assignment;
         NewPage.Subject_Id :=
           Number_toString (default 0 (Assignment.course_id assignment));
         NewPage.Assignment_URL := Assignment.html_url assignment |}.

(** The argument is [{...assignment, pageId}]. *)
Definition assignmentToUpdatedPage (assignment : Assignment.t * string)
  : M UpdatedPage.t :=
  let* start := or_now (Assignment.due_at (fst assignment)) in
  ret {| UpdatedPage.page_id := snd assignment;
         UpdatedPage.properties :=
           {| UpdatedPage.Due_Date := start;
              UpdatedPage.Assignment_URL := Assignment.html_url (fst assignment) |} |}.

Definition SYS_EXCEPTION_GRADE : string := "SYS_EXCEPTION_GRADE".

(** [assignment.name !== "SYS_EXCEPTION_GRADE"] *)
Definition not_sentinel (assignment : Assignment.t) : bool :=
  negb (bool_decide (Assignment.name assignment = Some SYS_EXCEPTION_GRADE)).

(** [assignmentObj.assignmentId === assignment.id?.toString()] *)
Definition same_id (assignment : Assignment.t) (assignmentObj : AssignmentObj) : bool :=
  bool_decide (Some (assignmentId assignmentObj)
               = Number_toString <$> Assignment.id assignment).

(** [existingAssignments.assignmentIds.find(...)] *)
Definition find_existing (existingAssignments : ExistingAssignments)
    (assignment : Assignment.t) : option AssignmentObj :=
  List.find (same_id assignment) (assignmentIds existingAssignments).

(** The assignments that pass the filter of [updatedEntries]. *)
Definition matched (assignments : list Assignment.t)
    (existingAssignments : ExistingAssignments) : list Assignment.t :=
  List.filter
    (fun assignment =>
       not_sentinel assignment
       && bool_decide (is_Some (find_existing existingAssignments assignment)))
    assignments.

(** The first [map] of [updatedEntries]: [find(...)!.pageId!]. *)
Definition with_pageId (existingAssignments : ExistingAssignments)
    (assignment : Assignment.t) : M (Assignment.t * string) :=
  match find_existing existingAssignments assignment with
  | Some assignmentObj => ret (assignment, pageId assignmentObj)
  | None => throw TypeError
  end.

(** The callback of the filter of [toCreate]:
    [!ids.includes(entry["Assignment Id"].number.toString())]. *)
Definition is_new (existingAssignments : ExistingAssignments)
    (entry : NewPage.t) : M bool :=
  match NewPage.Assignment_Id entry with
  | Some n =>
      ret (negb (includes
                   (List.map assignmentId (assignmentIds existingAssignments))
                   (Number_toString n)))
  | None => throw TypeError
  end.

(** The main script from [newEntries] to [toCreate], given the assignments
    and the lookup: the creation payloads and the update payloads. *)
Definition reconcile (assignments : list Assignment.t)
    (existingAssignments : ExistingAssignments)
  : M (list NewPage.t * list UpdatedPage.t) :=
  let* newEntries :=
    mapM assignmentToNewPage (List.filter not_sentinel assignments) in
  let* withPage :=
    mapM (with_pageId existingAssignments) (matched assignments existingAssignments) in
  let* updatedEntries := mapM assignmentToUpdatedPage withPage in
  let* toCreate := filterM (is_new existingAssignments) newEntries in
  ret (toCreate, updatedEntries).

(** The requests the script then issues. *)
Definition create_call (databaseId : string) (page : NewPage.t)
  : CreatePageParameters :=
  {| parent_database_id := databaseId;
     create_properties := NewPage.to_properties page |}.

(** [properties: { "Due Date": page.properties["Due Date"] }] *)
Definition update_call (page : UpdatedPage.t) : UpdatePageParameters :=
  {| update_page_id := UpdatedPage.page_id page;
     update_properties :=
       match UpdatedPage.to_properties (UpdatedPage.properties page) !! "Due Date" with
       | Some v => {[ "Due Date" := v ]}
       | None => ∅
       end |}.

(** One pass: the lookup from the rows of the database, the diff, the
    requests. *)
Definition sync (databaseId : string) (assignments : list Assignment.t)
    (results : list QueryResult)
  : M (list CreatePageParameters * list UpdatePageParameters) :=
  let* diff := reconcile assignments (getExistingAssignments results) in
  ret (List.map (create_call databaseId) (fst diff),
       List.map update_call (snd diff)).

End Reconciliation.

(** The row the database holds once [notion.pages.create] has been served
    with the payload [page]: its properties, typed by the schema of [newDb]
    (title, date, number, rich text, url), under the id Notion gave it. *)
Definition created_page (id : string) (page : NewPage.t) : QueryResult :=
  FullPage id (NewPage.to_properties page).

(** ** The credential store *)

(** What the getters see of the machine: the directories and the regular
    files of the disk, the lines the user will type at the prompts, and the
    questions asked so far (latest first).  A file path is kept as the pair
    [path.join] was given, the directory and the file name. *)
Record World : Type := {
  directories : gset string;
  files : gmap (string * string) string;
  stdin : list string;
  asked : list string
}.

Definition IO (A : Type) : Type := World -> result A * World.

Definition io_ret {A} (a : A) : IO A := fun w => (Ok a, w).

Definition io_bind {A B} (m : IO A) (f : A -> IO B) : IO B :=
  fun w => match m w with
           | (Ok a, w') => f a w'
           | (Throw e, w') => (Throw e, w')
           end.

Notation "'let!' x ':=' m 'in' f" := (io_bind m (fun x => f))
  (at level 10, x name, m at level 100, f at level 200).

Definition path_join (dir file : string) : string * string := (dir, file).

Definition existsSync (path : string * string) : IO bool :=
  fun w => (Ok (bool_decide (is_Some (files w !! path))), w).

(** [fs.readFileSync(path, "utf8")] *)
Definition readFileSync (path : string * string) : IO string :=
  fun w => match files w !! path with
           | Some contents => (Ok contents, w)
           | None => (Throw ENOENT, w)
           end.

(** [fs.mkdirSync(dir, { recursive: true })]: no error when [dir] exists. *)
Definition mkdirSync_recursive (dir : string) : IO unit :=
  fun w => (Ok tt,
            {| directories := {[ dir ]} ∪ directories w;
               files := files w; stdin := stdin w; asked := asked w |}).

(** [fs.writeFileSync(path, data, "utf8")]: creates or replaces the file;
    fails when the directory of [path] does not exist. *)
Definition writeFileSync (path : string * string) (data : string) : IO unit :=
  fun w => if bool_decide (path.1 ∈ directories w)
           then (Ok tt,
                 {| directories := directories w;
                    files := <[ path := data ]> (files w);
                    stdin := stdin w; asked := asked w |})
           else (Throw ENOENT, w).

(** [inquirer.prompt] with one [input] question: the next line typed, or a
    rejection when there is none. *)
Definition prompt (message : string) : IO string :=
  fun w => match stdin w with
           | answer :: rest =>
               (Ok answer,
                {| directories := directories w; files := files w;
                   stdin := rest; asked := message :: asked w |})
           | [] =>
               (Throw PromptRejected,
                {| directories := directories w; files := files w;
                   stdin := []; asked := message :: asked w |})
           end.

Section CredentialStore.

(** [envPaths.default("notion-canvas-sync").config] *)
Variable config : string.

Definition getNotionKey : IO string :=
  let keyPath := path_join config "notion.key" in
  let! present := existsSync keyPath in
  if present then readFileSync keyPath
  else
    let! key := prompt "What is your Notion API key?" in
    let! _ := writeFileSync keyPath key in
    io_ret key.

Definition getCanvasKey : IO string :=
  let keyPath := path_join config "canvas.key" in
  let! present := existsSync keyPath in
  if present then readFileSync keyPath
  else
    let! key := prompt "What is your Canvas API key?" in
    let! _ := mkdirSync_recursive config in
    let! _ := writeFileSync keyPath key in
    io_ret key.

Definition getCanvasUrl : IO string :=
  let keyPath := path_join config "canvas.url" in
  let! present := existsSync keyPath in
  if present then readFileSync keyPath
  else
    let! key := prompt "What is your Canvas URL?" in
    let! _ := mkdirSync_recursive config in
    let! _ := writeFileSync keyPath key in
    io_ret key.

(** The three secrets and their getters. *)
Inductive Secret : Type := NotionKey | CanvasKey | CanvasUrl.

Definition secret_file (s : Secret) : string :=
  match s with
  | NotionKey => "notion.key"
  | CanvasKey => "canvas.key"
  | CanvasUrl => "canvas.url"
  end.

Definition getter (s : Secret) : IO string :=
  match s with
  | NotionKey => getNotionKey
  | CanvasKey => getCanvasKey
  | CanvasUrl => getCanvasUrl
  end.

End CredentialStore.

(** [String.prototype.trim] on text in the ASCII range: what the
    specification calls the trimmed contents of a file.  The code of the
    getters has no counterpart of it. *)
Fixpoint trimStart (s : string) : string :=
  match s with
  | String c rest => if Ascii.is_space c then trimStart rest else s
  | EmptyString => EmptyString
  end.

Definition trim (s : string) : string :=
  String.rev (trimStart (String.rev (trimStart s))).

(** ** Vocabulary of the statements *)

(** The test of [is_new] on an entry that has its number. *)
Definition fresh_entry (existingAssignments : ExistingAssignments) (entry : NewPage.t) : bool :=
  match NewPage.Assignment_Id entry with
  | Some n =>
      negb (includes (List.map assignmentId (assignmentIds existingAssignments))
                     (Number_toString n))
  | None => false
  end.

(** The id [i] has a key in the lookup. *)
Definition known (existingAssignments : ExistingAssignments) (i : option Z) : Prop :=
  exists n, i = Some n /\
    In (Number_toString n) (List.map assignmentId (assignmentIds existingAssignments)).

(** [p] is a creation payload of [a]: every field but a defaulted due date is
    a function of [a]. *)
Definition new_payload (a : Assignment.t) (p : NewPage.t) : Prop :=
  NewPage.Name p = default "Untitled" (Assignment.name a) /\
  NewPage.Assignment_Id p = Assignment.id a /\
  NewPage.Subject_Id p = Number_toString (default 0 (Assignment.course_id a)) /\
  NewPage.Assignment_URL p = Assignment.html_url a /\
  (forall d, Assignment.due_at a = Some d -> NewPage.Due_Date p = d).

(** [p] is an update payload of [a]: addressed to the page the lookup
    resolves [a] to. *)
Definition updated_payload (existingAssignments : ExistingAssignments)
    (a : Assignment.t) (p : UpdatedPage.t) : Prop :=
  pageId <$> find_existing existingAssignments a = Some (UpdatedPage.page_id p) /\
  UpdatedPage.Assignment_URL (UpdatedPage.properties p) = Assignment.html_url a /\
  (forall d, Assignment.due_at a = Some d ->
             UpdatedPage.Due_Date (UpdatedPage.properties p) = d).

(** Every assignment that is not the sentinel has its id. *)
Definition ids_present (assignments : list Assignment.t) : Prop :=
  Forall (fun a => is_Some (Assignment.id a)) (List.filter not_sentinel assignments).

(** ** Inputs of the worked examples *)

Module Sample.
Definition clock : nat -> string := fun _ => "2024-03-01T09:00:00.000Z".

Definition hw1 : Assignment.t :=
  Assignment.mk (Some 1) (Some "HW1") (Some "2024-02-01") (Some 7)
                (Some "https://canvas.example/courses/7/assignments/1").

(** A second record with the id of [hw1]. *)
Definition hw1_again : Assignment.t :=
  Assignment.mk (Some 1) (Some "HW1 (section B)") (Some "2024-02-08") (Some 7) None.

Definition hw3 : Assignment.t :=
  Assignment.mk (Some 3) (Some "HW3") None (Some 7) None.

Definition grade : Assignment.t :=
  Assignment.mk (Some 2) (Some "SYS_EXCEPTION_GRADE") None None None.

(** An assignment with no [id]. *)
Definition essay : Assignment.t :=
  Assignment.mk None (Some "Essay") (Some "2024-02-01") (Some 7) None.

(** An assignment whose [id] is [0]. *)
Definition quiz : Assignment.t :=
  Assignment.mk (Some 0) (Some "Quiz") (Some "2024-02-01") (Some 7) None.

Definition page_p1 : QueryResult :=
  FullPage "p1" {[ "Assignment Id" := PNumber (Some 1) ]}.

(** A page whose "Assignment Id" is text. *)
Definition page_text : QueryResult :=
  FullPage "p9" {[ "Assignment Id" := PRichText "3" ]}.

(** A page whose "Assignment Id" is the number [0]. *)
Definition page_zero : QueryResult :=
  FullPage "p0" {[ "Assignment Id" := PNumber (Some 0) ]}.

Definition no_pages : ExistingAssignments := getExistingAssignments [].

Definition config : string := "/home/ann/.config/notion-canvas-sync".

(** A first run: no configuration directory, and the user will type one
    line. *)
Definition first_run : World :=
  {| directories := ∅; files := ∅; stdin := ["s3cr3t"]; asked := [] |}.

(** A key file that ends with a line feed. *)
Definition key_line : string := "s3cr3t" +:+ String "010"%char "".

Definition later_run : World :=
  {| directories := {[ config ]};
     files := {[ path_join config "notion.key" := key_line ]};
     stdin := []; asked := [] |}.
End Sample.

(** ** The rest of the script *)

(** The assignments that [toCreate] keeps: not the sentinel, and no entry of
    the lookup under their id. *)
Definition unmatched (assignments : list Assignment.t)
    (existingAssignments : ExistingAssignments) : list Assignment.t :=
  List.filter
    (fun assignment =>
       not_sentinel assignment
       && negb (bool_decide (is_Some (find_existing existingAssignments assignment))))
    assignments.

(** [assignment.due_at] is nullish: the payload reads the clock. *)
Definition no_due_date (assignment : Assignment.t) : bool :=
  bool_decide (Assignment.due_at assignment = None).

(** The [properties] of the database [newDb] creates: the type of each
    column. *)
Definition newDb_properties : gmap string PropertyType :=
  {[ "Name" := TTitle;
     "Due Date" := TDate;
     "Assignment Id" := TNumber;
     "Subject Id" := TRichText;
     "Assignment URL" := TUrl ]}.

(** [Array.prototype.map] with a callback that may throw: the first
    exception ends it. *)
Fixpoint mapR {A B} (f : A -> result B) (l : list A) : result (list B) :=
  match l with
  | [] => Ok []
  | x :: r =>
      match f x with
      | Ok y =>
          match mapR f r with
          | Ok ys => Ok (y :: ys)
          | Throw e => Throw e
          end
      | Throw e => Throw e
      end
  end.

(** *** The choices of [getDatabase] and [getPage] *)

(** A property of a page of [notion.search], as far as [getPage] reads it:
    of type title, with the plain text of each item of the [title] array,
    or of another type. *)
Inductive SearchProperty : Type :=
| SPTitle (title : list string)
| SPOther.

(** An element of [results] of [notion.search]: a page or a database, full
    or partial (a partial one has [object] and [id] only). *)
Inductive SearchResult : Type :=
| PageResult (id : string) (properties : gmap string SearchProperty)
| PartialPageResult (id : string)
| DatabaseResult (id : string) (title : list string)
| PartialDatabaseResult (id : string).

Definition result_id (r : SearchResult) : string :=
  match r with
  | PageResult i _ | PartialPageResult i
  | DatabaseResult i _ | PartialDatabaseResult i => i
  end.

(** [result.object === "database"] *)
Definition is_database (r : SearchResult) : bool :=
  match r with
  | DatabaseResult _ _ | PartialDatabaseResult _ => true
  | PageResult _ _ | PartialPageResult _ => false
  end.

(** [result.object === "page"] *)
Definition is_page (r : SearchResult) : bool :=
  match r with
  | PageResult _ _ | PartialPageResult _ => true
  | DatabaseResult _ _ | PartialDatabaseResult _ => false
  end.

(** A choice of an [inquirer] list. *)
Module Choice.
Record t : Type := mk {
  name : string;
  value : string
}.
End Choice.

(** [{ name: result.title[0].plain_text, value: result.id }]: reading
    [plain_text] throws when the [title] array is empty or absent. *)
Definition database_choice (r : SearchResult) : result Choice.t :=
  match r with
  | DatabaseResult i (first :: _) => Ok (Choice.mk first i)
  | DatabaseResult _ [] => Throw TypeError
  | PartialDatabaseResult _ => Throw TypeError
  | PageResult _ _ | PartialPageResult _ => Throw TypeError
  end.

Definition create_new_database : Choice.t := Choice.mk "Create new database" "new".

(** The [options] of [getDatabase], from the results of the search. *)
Definition database_options (results : list SearchResult) : result (list Choice.t) :=
  let onlyDb := List.filter is_database results in
  match mapR database_choice onlyDb with
  | Ok options => Ok (options ++ [create_new_database])
  | Throw e => Throw e
  end.

(** The callback of [options] in [getPage]:
    [name = properties.Name ?? properties.title], the first item of its
    [title] when it is of type title, ["Untitled"] otherwise. *)
Definition page_choice (r : SearchResult) : result Choice.t :=
  match r with
  | PageResult i properties =>
      let name :=
        match properties !! "Name" with
        | Some v => Some v
        | None => properties !! "title"
        end in
      match name with
      | Some (SPTitle (first :: _)) => Ok (Choice.mk first i)
      | Some (SPTitle []) => Throw TypeError
      | Some SPOther | None => Ok (Choice.mk "Untitled" i)
      end
  | PartialPageResult _ => Throw TypeError
  | DatabaseResult _ _ | PartialDatabaseResult _ => Throw TypeError
  end.

(** The [options] of [getPage]. *)
Definition page_options (results : list SearchResult) : result (list Choice.t) :=
  let onlyPages := List.filter is_page results in
  mapR page_choice onlyPages.

(** *** [getAssignments] *)

(** [Promise.all] of promises that fulfil ([Some]) or reject ([None]): it
    fulfils with all the values when all fulfil and rejects otherwise. *)
Fixpoint Promise_all {A} (promises : list (option A)) : option (list A) :=
  match promises with
  | [] => Some []
  | Some x :: rest =>
      match Promise_all rest with
      | Some xs => Some (x :: xs)
      | None => None
      end
  | None :: _ => None
  end.

Section Canvas.

(** [canvas.assignments.listAssignmentsAssignments(course)]: the assignments
    of the course, or a rejection. *)
Variable listAssignmentsAssignments : string -> option (list Assignment.t).

Definition getAssignments (courses : list string) : option (list Assignment.t) :=
  match Promise_all (List.map listAssignmentsAssignments courses) with
  | Some courseAssignments => Some (List.concat courseAssignments)
  | None => None
  end.

End Canvas.

(** *** The disk of the getters *)

(** Every file of the disk is in a directory of the disk. *)
Definition disk_ok (w : World) : Prop :=
  forall dir file, is_Some (files w !! (dir, file)) -> dir ∈ directories w.

(** The question a getter asks. *)
Definition secret_question (s : Secret) : string :=
  match s with
  | NotionKey => "What is your Notion API key?"
  | CanvasKey => "What is your Canvas API key?"
  | CanvasUrl => "What is your Canvas URL?"
  end.

(** The world once the getter of [s] has asked its question and the user
    has typed a line, [rest] being the lines still to come; and the world
    once it has stored the [answer] under [config] as well. *)
Definition after_question (s : Secret) (rest : list string) (w : World) : World :=
  {| directories := directories w;
     files := files w;
     stdin := rest;
     asked := secret_question s :: asked w |}.

Definition after_store (config : string) (s : Secret) (answer : string)
    (rest : list string) (w : World) : World :=
  {| directories :=
       match s with
       | NotionKey => directories w
       | CanvasKey | CanvasUrl => {[ config ]} ∪ directories w
       end;
     files := <[ path_join config (secret_file s) := answer ]> (files w);
     stdin := rest;
     asked := secret_question s :: asked w |}.

(** *** Further inputs of the worked examples *)

Module Fixture.
(** Two rows for the assignment [1], and one for [3]. *)
Definition row (id : string) (n : Z) : QueryResult :=
  FullPage id {[ "Assignment Id" := PNumber (Some n) ]}.

Definition rows : list QueryResult :=
  [Sample.page_text; row "p1" 1; PartialPage "p5"; row "p2" 1; row "p3" 3].

Definition assignments : list Assignment.t :=
  [Sample.hw1; Sample.grade; Sample.hw3].

Definition search_results : list SearchResult :=
  [ DatabaseResult "db1" ["Homework"; " 2024"];
    PageResult "pg1" {[ "title" := SPTitle ["Notes"] ]};
    DatabaseResult "db2" ["Exams"] ].

(** A disk with the directory and the Canvas key, and two lines to type. *)
Definition half_configured : World :=
  {| directories := {[ Sample.config ]};
     files := {[ path_join Sample.config "canvas.key" := "tok" ]};
     stdin := ["https://canvas.example"; "s3cr3t"]; asked := [] |}.

Definition listing (course : string) : option (list Assignment.t) :=
  if bool_decide (course = "7") then Some [Sample.hw1; Sample.hw3]
  else if bool_decide (course = "8") then Some [Sample.quiz]
  else None.
End Fixture.

(** * Properties *)

Example Number_toString_samples :
  Number_toString 0 = "0" /\ Number_toString 42 = "42" /\
  Number_toString (-7) = "-7" /\ Number_toString 1205 = "1205".
Proof. repeat split; reflexivity. Qed.

(** ** The lookup of existing entries *)

Lemma includes_In (l : list string) (s : string) :
  includes l s = true <-> In s l.
Proof.
  unfold includes. rewrite existsb_exists. split.
  - intros (x & Hx & Heq). apply String.eqb_eq in Heq. now subst.
  - intros Hs. exists s. split; [assumption | apply String.eqb_refl].
Qed.

Lemma truthy_number_Some (z : Z) : truthy_number (Some z) = true <-> z <> 0.
Proof.
  simpl. rewrite negb_true_iff, Z.eqb_neq. reflexivity.
Qed.

(** One turn of the loop appends what the page contributes on its own. *)
Lemma push_existing_app (acc : list AssignmentObj) (page : QueryResult) :
  push_existing acc page = acc ++ push_existing [] page.
Proof.
  destruct page as [pid props | pid]; simpl.
  - destruct (props !! "Assignment Id") as [[ | | [z|] | | | | ] | ];
      rewrite ?app_nil_r; try reflexivity.
    destruct (truthy_number (Some z)); rewrite ?app_nil_r; reflexivity.
  - now rewrite app_nil_r.
Qed.

Lemma fold_push_existing (l : list QueryResult) (acc : list AssignmentObj) :
  fold_left push_existing l acc = acc ++ flat_map (push_existing []) l.
Proof.
  revert acc. induction l as [| page l IH]; intros acc; simpl.
  - now rewrite app_nil_r.
  - rewrite IH, (push_existing_app acc page), <- app_assoc. reflexivity.
Qed.

Lemma assignmentIds_flat_map (results : list QueryResult) :
  assignmentIds (getExistingAssignments results)
  = flat_map (push_existing []) results.
Proof.
  unfold getExistingAssignments; simpl. rewrite fold_push_existing; simpl.
  induction results as [| [pid props | pid] l IH]; simpl; try assumption.
  - reflexivity.
  - now rewrite IH.
Qed.

Lemma assignmentIds_app (l1 l2 : list QueryResult) :
  assignmentIds (getExistingAssignments (l1 ++ l2))
  = assignmentIds (getExistingAssignments l1)
    ++ assignmentIds (getExistingAssignments l2).
Proof. rewrite !assignmentIds_flat_map. apply flat_map_app. Qed.

(** What a single page contributes: one entry when its "Assignment Id" is a
    number other than [0], nothing otherwise. *)
Lemma push_existing_entry (page : QueryResult) (o : AssignmentObj) :
  In o (push_existing [] page) <->
  exists pid props z,
    page = FullPage pid props /\
    props !! "Assignment Id" = Some (PNumber (Some z)) /\
    z <> 0 /\
    o = {| assignmentId := Number_toString z; pageId := pid |}.
Proof.
  split.
  - destruct page as [pid props | pid]; cbn [push_existing]; [| intros []].
    destruct (props !! "Assignment Id") as [[ | | [z|] | | | | ] | ] eqn:Hp;
      try (intros []).
    destruct (truthy_number (Some z)) eqn:Hz; [| intros []].
    apply truthy_number_Some in Hz.
    intros [<- | []]. exists pid, props, z. auto.
  - intros (pid & props & z & -> & Hp & Hz & ->). cbn [push_existing].
    rewrite Hp. apply truthy_number_Some in Hz. rewrite Hz. now left.
Qed.

Lemma assignmentIds_entry (results : list QueryResult) (o : AssignmentObj) :
  In o (assignmentIds (getExistingAssignments results)) <->
  exists pid props z,
    In (FullPage pid props) results /\
    props !! "Assignment Id" = Some (PNumber (Some z)) /\
    z <> 0 /\
    o = {| assignmentId := Number_toString z; pageId := pid |}.
Proof.
  rewrite assignmentIds_flat_map, in_flat_map. split.
  - intros (page & Hin & Ho). apply push_existing_entry in Ho.
    destruct Ho as (pid & props & z & -> & H). exists pid, props, z. tauto.
  - intros (pid & props & z & Hin & H). exists (FullPage pid props).
    split; [assumption |]. apply push_existing_entry. exists pid, props, z. tauto.
Qed.

(** A page whose "Assignment Id" is missing or not of number type
    contributes nothing. *)
Lemma push_existing_not_number (pid : string) (props : gmap string PropertyValue) :
  (forall v, props !! "Assignment Id" = Some v -> property_type v <> TNumber) ->
  push_existing [] (FullPage pid props) = [].
Proof.
  intros H. simpl.
  destruct (props !! "Assignment Id") as [v |] eqn:Hp; [| reflexivity].
  specialize (H v eq_refl). destruct v; simpl in H; congruence.
Qed.

(** So does one whose number is [null] or [0]. *)
Lemma push_existing_falsy (pid : string) (props : gmap string PropertyValue)
    (n : option Z) :
  props !! "Assignment Id" = Some (PNumber n) ->
  truthy_number n = false ->
  push_existing [] (FullPage pid props) = [].
Proof.
  intros Hp Hn. simpl. rewrite Hp. destruct n as [z |]; [| reflexivity].
  now rewrite Hn.
Qed.

(** ** Computations *)

Lemma bind_Ok_inv {A B} (m : M A) (f : A -> M B) (k : nat) (r : B * nat) :
  bind m f k = Ok r -> exists a k1, m k = Ok (a, k1) /\ f a k1 = Ok r.
Proof.
  unfold bind. destruct (m k) as [[a k1] | e]; [eauto | discriminate].
Qed.

Lemma bind_Ok {A B} (m : M A) (f : A -> M B) (k k1 : nat) (a : A) :
  m k = Ok (a, k1) -> bind m f k = f a k1.
Proof. unfold bind. now intros ->. Qed.


Ltac bind_inv H :=
  let a := fresh "a" in
  let k := fresh "k" in
  let H1 := fresh H in
  apply bind_Ok_inv in H; destruct H as (a & k & H1 & H).

Lemma mapM_Forall2 {A B} (f : A -> M B) (R : A -> B -> Prop) :
  (forall x k y k', f x k = Ok (y, k') -> R x y) ->
  forall l k ys k', mapM f l k = Ok (ys, k') -> Forall2 R l ys.
Proof.
  intros Hf. induction l as [| x l IH]; intros k ys k' H; simpl in H.
  - injection H as <- _. constructor.
  - bind_inv H. bind_inv H. injection H as <- _.
    constructor; [eapply Hf | eapply IH]; eassumption.
Qed.

Lemma mapM_returns {A B} (f : A -> M B) (P : A -> Prop) :
  (forall x k, P x -> exists y k', f x k = Ok (y, k')) ->
  forall l k, Forall P l -> exists ys k', mapM f l k = Ok (ys, k').
Proof.
  intros Hf. induction l as [| x l IH]; intros k Hl; simpl.
  - now exists [], k.
  - inversion Hl as [| ? ? Hx Hl']; subst.
    destruct (Hf x k Hx) as (y & k1 & Hy).
    destruct (IH k1 Hl') as (ys & k2 & Hys).
    exists (y :: ys), k2.
    rewrite (bind_Ok _ _ _ _ _ Hy), (bind_Ok _ _ _ _ _ Hys). reflexivity.
Qed.

Section ReconciliationFacts.

Variable clock : nat -> string.

Lemma or_now_returns (x : option string) (k : nat) :
  exists s k', or_now clock x k = Ok (s, k').
Proof. destruct x; simpl; eauto. Qed.

Lemma or_now_given (x : option string) (k k' : nat) (s d : string) :
  or_now clock x k = Ok (s, k') -> x = Some d -> s = d.
Proof. intros H ->. simpl in H. now injection H. Qed.

(** With no due date the payload carries the reading of the clock made
    during the call. *)
Lemma or_now_default (k : nat) : or_now clock None k = Ok (clock k, S k).
Proof. reflexivity. Qed.

Lemma assignmentToNewPage_returns (a : Assignment.t) (k : nat) :
  exists p k', assignmentToNewPage clock a k = Ok (p, k').
Proof.
  unfold assignmentToNewPage.
  destruct (or_now_returns (Assignment.due_at a) k) as (s & k' & Hs).
  rewrite (bind_Ok _ _ _ _ _ Hs). eauto.
Qed.

Lemma assignmentToNewPage_payload (a : Assignment.t) (k : nat) (p : NewPage.t)
    (k' : nat) :
  assignmentToNewPage clock a k = Ok (p, k') -> new_payload a p.
Proof.
  unfold assignmentToNewPage. intros H. bind_inv H. injection H as <- _.
  repeat split. simpl. intros d Hd. eapply or_now_given; eassumption.
Qed.

Lemma assignmentToNewPage_due_default (a : Assignment.t) (k : nat) :
  Assignment.due_at a = None ->
  exists p, assignmentToNewPage clock a k = Ok (p, S k) /\
            NewPage.Due_Date p = clock k.
Proof.
  intros Hd. unfold assignmentToNewPage. rewrite Hd.
  rewrite (bind_Ok _ _ _ _ _ (or_now_default k)). eauto.
Qed.

Lemma assignmentToUpdatedPage_returns (a : Assignment.t * string) (k : nat) :
  exists p k', assignmentToUpdatedPage clock a k = Ok (p, k').
Proof.
  unfold assignmentToUpdatedPage.
  destruct (or_now_returns (Assignment.due_at (fst a)) k) as (s & k' & Hs).
  rewrite (bind_Ok _ _ _ _ _ Hs). eauto.
Qed.

Lemma assignmentToUpdatedPage_due_default (a : Assignment.t * string) (k : nat) :
  Assignment.due_at (fst a) = None ->
  exists p, assignmentToUpdatedPage clock a k = Ok (p, S k) /\
            UpdatedPage.Due_Date (UpdatedPage.properties p) = clock k.
Proof.
  intros Hd. unfold assignmentToUpdatedPage. rewrite Hd.
  rewrite (bind_Ok _ _ _ _ _ (or_now_default k)). eauto.
Qed.

(** *** The filter of [toCreate] *)

Lemma is_new_Some (E : ExistingAssignments) (e : NewPage.t) (k : nat) (n : Z) :
  NewPage.Assignment_Id e = Some n -> is_new E e k = Ok (fresh_entry E e, k).
Proof. intros He. unfold is_new, fresh_entry. now rewrite He. Qed.

Lemma is_new_None (E : ExistingAssignments) (e : NewPage.t) (k : nat) :
  NewPage.Assignment_Id e = None -> is_new E e k = Throw TypeError.
Proof. intros He. unfold is_new. now rewrite He. Qed.

Lemma filterM_is_new_inv (E : ExistingAssignments) (l ys : list NewPage.t)
    (k k' : nat) :
  filterM (is_new E) l k = Ok (ys, k') ->
  k' = k /\ Forall (fun e => is_Some (NewPage.Assignment_Id e)) l /\
  ys = List.filter (fresh_entry E) l.
Proof.
  revert ys k k'. induction l as [| e l IH]; intros ys k k' H; simpl in H.
  - injection H as <- <-. auto.
  - bind_inv H. bind_inv H. injection H as <- <-.
    apply IH in H1. destruct H1 as (-> & Hl & ->).
    destruct (NewPage.Assignment_Id e) as [n |] eqn:He.
    + rewrite (is_new_Some _ _ _ _ He) in H0. injection H0 as <- <-.
      repeat split.
      constructor; [rewrite He; eauto | assumption].
    + rewrite (is_new_None _ _ _ He) in H0. discriminate.
Qed.

Lemma filterM_is_new_returns (E : ExistingAssignments) (l : list NewPage.t)
    (k : nat) :
  Forall (fun e => is_Some (NewPage.Assignment_Id e)) l ->
  filterM (is_new E) l k = Ok (List.filter (fresh_entry E) l, k).
Proof.
  induction 1 as [| e l [n He] Hl IH]; simpl; [reflexivity |].
  rewrite (bind_Ok _ _ _ _ _ (is_new_Some E e k n He)).
  rewrite (bind_Ok _ _ _ _ _ IH). reflexivity.
Qed.


(** *** The lookup of an assignment *)

Lemma find_existing_known (E : ExistingAssignments) (a : Assignment.t) :
  is_Some (find_existing E a) <-> known E (Assignment.id a).
Proof.
  unfold find_existing, known. split.
  - intros [o Ho]. apply find_some in Ho. destruct Ho as [Hin Hsame].
    unfold same_id in Hsame. apply bool_decide_eq_true in Hsame.
    destruct (Assignment.id a) as [n |]; [| discriminate].
    injection Hsame as Hs. exists n. split; [reflexivity |].
    rewrite <- Hs. now apply in_map.
  - intros (n & Hid & Hin). apply in_map_iff in Hin.
    destruct Hin as (o & Ho & Hin).
    destruct (List.find (same_id a) (assignmentIds E)) as [o' |] eqn:Hf; [eauto |].
    exfalso. apply (find_none _ _ Hf) in Hin.
    unfold same_id in Hin. rewrite Hid, Ho in Hin. simpl in Hin.
    now rewrite bool_decide_eq_false in Hin.
Qed.

Lemma known_dec (E : ExistingAssignments) (i : option Z) :
  known E i \/ ~ known E i.
Proof.
  destruct i as [n |].
  - destruct (includes (List.map assignmentId (assignmentIds E)) (Number_toString n))
      eqn:Hi.
    + left. exists n. split; [reflexivity | now apply includes_In].
    + right. intros (m & [= <-] & Hin). apply includes_In in Hin. congruence.
  - right. intros (m & [=] & _).
Qed.

Lemma fresh_entry_known (E : ExistingAssignments) (e : NewPage.t) :
  is_Some (NewPage.Assignment_Id e) ->
  fresh_entry E e = true <-> ~ known E (NewPage.Assignment_Id e).
Proof.
  intros [n Hn]. unfold fresh_entry, known. rewrite Hn, negb_true_iff. split.
  - intros Hi (m & [= <-] & Hin). apply includes_In in Hin. congruence.
  - intros Hk. destruct (includes _ _) eqn:Hi; [| reflexivity].
    exfalso. apply Hk. exists n. split; [reflexivity | now apply includes_In].
Qed.

Lemma matched_In (A : list Assignment.t) (E : ExistingAssignments)
    (a : Assignment.t) :
  In a (matched A E) <->
  In a (List.filter not_sentinel A) /\ known E (Assignment.id a).
Proof.
  unfold matched. rewrite !filter_In, andb_true_iff, bool_decide_eq_true.
  rewrite find_existing_known. tauto.
Qed.

Lemma with_pageId_inv (E : ExistingAssignments) (a : Assignment.t) (k k' : nat)
    (r : Assignment.t * string) :
  with_pageId E a k = Ok (r, k') ->
  fst r = a /\ pageId <$> find_existing E a = Some (snd r).
Proof.
  unfold with_pageId. destruct (find_existing E a) as [o |]; [| discriminate].
  intros [= <- _]. auto.
Qed.

Lemma with_pageId_returns (E : ExistingAssignments) (a : Assignment.t) (k : nat) :
  is_Some (find_existing E a) -> exists r k', with_pageId E a k = Ok (r, k').
Proof. intros [o Ho]. unfold with_pageId. rewrite Ho. unfold ret. eauto. Qed.

Lemma assignmentToUpdatedPage_payload (E : ExistingAssignments)
    (a : Assignment.t) (r : Assignment.t * string) (k k' : nat) (p : UpdatedPage.t) :
  fst r = a /\ pageId <$> find_existing E a = Some (snd r) ->
  assignmentToUpdatedPage clock r k = Ok (p, k') ->
  updated_payload E a p.
Proof.
  intros [<- Hpage] H. unfold assignmentToUpdatedPage in H.
  bind_inv H. injection H as <- _. repeat split; simpl; [assumption |].
  intros d Hd. eapply or_now_given; eassumption.
Qed.

(** *** The diff as a whole *)

Lemma new_payload_ids (l : list Assignment.t) (ps : list NewPage.t) :
  Forall2 new_payload l ps ->
  List.map NewPage.Assignment_Id ps = List.map Assignment.id l.
Proof.
  induction 1 as [| a p l ps (_ & Hid & _) _ IH]; simpl; [reflexivity |].
  now rewrite Hid, IH.
Qed.

(** What a run that returns has computed. *)
Lemma reconcile_inv (A : list Assignment.t) (E : ExistingAssignments)
    (k k' : nat) (c : list NewPage.t) (u : list UpdatedPage.t) :
  reconcile clock A E k = Ok ((c, u), k') ->
  exists newEntries,
    Forall2 new_payload (List.filter not_sentinel A) newEntries /\
    ids_present A /\
    c = List.filter (fresh_entry E) newEntries /\
    Forall2 (updated_payload E) (matched A E) u.
Proof.
  unfold reconcile. intros H.
  apply bind_Ok_inv in H as (newEntries & k1 & Hnew & H).
  apply bind_Ok_inv in H as (withPage & k2 & Hwith & H).
  apply bind_Ok_inv in H as (updatedEntries & k3 & Hupd & H).
  apply bind_Ok_inv in H as (toCreate & k4 & Hcreate & H).
  injection H as <- <- <-.
  apply (mapM_Forall2 _ new_payload (assignmentToNewPage_payload)) in Hnew.
  apply (mapM_Forall2 _ _ (fun a k r k' => with_pageId_inv E a k k' r)) in Hwith.
  apply (mapM_Forall2 _ (fun r p => exists k k', assignmentToUpdatedPage clock r k = Ok (p, k')))
    in Hupd; [| eauto].
  apply filterM_is_new_inv in Hcreate as (_ & Hids & ->).
  exists newEntries. repeat split; try assumption.
  - unfold ids_present. apply List.Forall_forall. intros a Ha.
    rewrite List.Forall_forall in Hids.
    apply (in_map Assignment.id) in Ha.
    rewrite <- (new_payload_ids _ _ Hnew) in Ha.
    apply in_map_iff in Ha as (p & <- & Hp). auto.
  - eapply Forall2_trans; [| exact Hwith | exact Hupd].
    intros a r p Har (k5 & k6 & Hp). simpl in Har.
    exact (assignmentToUpdatedPage_payload E a r k5 k6 p Har Hp).
Qed.

(** A run returns when every assignment that is not the sentinel has its
    id. *)
Lemma reconcile_returns (A : list Assignment.t) (E : ExistingAssignments)
    (k : nat) :
  ids_present A ->
  exists c u k', reconcile clock A E k = Ok ((c, u), k').
Proof.
  intros Hids. unfold reconcile.
  destruct (mapM_returns (assignmentToNewPage clock) (fun _ => True)
              (fun a k _ => assignmentToNewPage_returns a k)
              (List.filter not_sentinel A) k) as (newEntries & k1 & Hnew).
  { apply List.Forall_forall. auto. }
  rewrite (bind_Ok _ _ _ _ _ Hnew).
  destruct (mapM_returns (with_pageId E) (fun a => is_Some (find_existing E a))
              (fun a k => with_pageId_returns E a k)
              (matched A E) k1) as (withPage & k2 & Hwith).
  { apply List.Forall_forall. intros a Ha. apply matched_In in Ha.
    apply find_existing_known. tauto. }
  rewrite (bind_Ok _ _ _ _ _ Hwith).
  destruct (mapM_returns (assignmentToUpdatedPage clock) (fun _ => True)
              (fun a k _ => assignmentToUpdatedPage_returns a k)
              withPage k2) as (updatedEntries & k3 & Hupd).
  { apply List.Forall_forall. auto. }
  rewrite (bind_Ok _ _ _ _ _ Hupd).
  assert (Hsome : Forall (fun e => is_Some (NewPage.Assignment_Id e)) newEntries).
  { apply (mapM_Forall2 _ new_payload (assignmentToNewPage_payload)) in Hnew.
    unfold ids_present in Hids. clear - Hids Hnew.
    induction Hnew as [| a p l ps (_ & Hid & _) _ IH]; [constructor |].
    inversion Hids; subst. constructor; [now rewrite Hid | auto]. }
  rewrite (bind_Ok _ _ _ _ _ (filterM_is_new_returns E newEntries k3 Hsome)).
  unfold ret. eauto.
Qed.


(** The lookup is all a run reads of the existing entries. *)
Lemma reconcile_lookup_only (A : list Assignment.t) (E E' : ExistingAssignments)
    (k : nat) :
  assignmentIds E = assignmentIds E' ->
  reconcile clock A E k = reconcile clock A E' k.
Proof.
  intros H. unfold reconcile, matched, with_pageId, is_new, find_existing.
  rewrite H. reflexivity.
Qed.

(** *** The ids of the two outputs *)

Lemma fresh_entry_true (E : ExistingAssignments) (e : NewPage.t) :
  fresh_entry E e = true <->
  is_Some (NewPage.Assignment_Id e) /\ ~ known E (NewPage.Assignment_Id e).
Proof.
  split.
  - intros H. assert (Hs : is_Some (NewPage.Assignment_Id e)).
    { unfold fresh_entry in H. destruct (NewPage.Assignment_Id e); [eauto | discriminate]. }
    split; [assumption | now apply fresh_entry_known].
  - intros [Hs Hk]. now apply fresh_entry_known.
Qed.

Lemma created_ids (E : ExistingAssignments) (l : list Assignment.t)
    (newEntries : list NewPage.t) (i : option Z) :
  Forall2 new_payload l newEntries ->
  In i (List.map NewPage.Assignment_Id (List.filter (fresh_entry E) newEntries)) <->
  In i (List.map Assignment.id l) /\ is_Some i /\ ~ known E i.
Proof.
  intros Hpay. rewrite <- (new_payload_ids _ _ Hpay), !in_map_iff. split.
  - intros (p & <- & Hp). apply filter_In in Hp as [Hin Hfresh].
    apply fresh_entry_true in Hfresh. split; [eauto | assumption].
  - intros ((p & <- & Hin) & Hfresh). exists p. split; [reflexivity |].
    apply filter_In. split; [assumption | now apply fresh_entry_true].
Qed.

Lemma updated_ids (A : list Assignment.t) (E : ExistingAssignments)
    (i : option Z) :
  In i (List.map Assignment.id (matched A E)) <->
  In i (List.map Assignment.id (List.filter not_sentinel A)) /\ known E i.
Proof.
  rewrite !in_map_iff. split.
  - intros (a & <- & Ha). apply matched_In in Ha as [Hin Hk]. eauto.
  - intros ((a & <- & Hin) & Hk). exists a. split; [reflexivity |].
    apply matched_In. auto.
Qed.

Lemma NoDup_map_filter {X Y} (f : X -> Y) (g : X -> bool) (l : list X) :
  List.NoDup (List.map f l) -> List.NoDup (List.map f (List.filter g l)).
Proof.
  induction l as [| x l IH]; simpl; [auto |].
  rewrite List.NoDup_cons_iff. intros [Hx Hl].
  destruct (g x); simpl; [| auto].
  apply List.NoDup_cons_iff. split; [| auto].
  intros Hin. apply Hx. apply in_map_iff in Hin as (y & Hy & Hin).
  apply filter_In in Hin as [Hin _]. rewrite <- Hy. now apply in_map.
Qed.

Lemma not_sentinel_name (a : Assignment.t) :
  not_sentinel a = true <-> Assignment.name a <> Some "SYS_EXCEPTION_GRADE".
Proof.
  unfold not_sentinel, SYS_EXCEPTION_GRADE.
  now rewrite negb_true_iff, bool_decide_eq_false.
Qed.

Lemma named_ids (A : list Assignment.t) (i : option Z) :
  In i (List.map Assignment.id (List.filter not_sentinel A)) <->
  exists a, In a A /\ Assignment.name a <> Some "SYS_EXCEPTION_GRADE"
            /\ Assignment.id a = i.
Proof.
  rewrite in_map_iff. split.
  - intros (a & Hid & Ha). apply filter_In in Ha as [Ha Hs].
    apply not_sentinel_name in Hs. eauto.
  - intros (a & Ha & Hs & Hid). exists a. split; [assumption |].
    apply filter_In. split; [assumption | now apply not_sentinel_name].
Qed.

Lemma ids_present_named (A : list Assignment.t) :
  ids_present A <->
  forall a, In a A -> Assignment.name a <> Some "SYS_EXCEPTION_GRADE" ->
            is_Some (Assignment.id a).
Proof.
  unfold ids_present. rewrite List.Forall_forall. split.
  - intros H a Ha Hs. apply H, filter_In. split; [assumption |].
    now apply not_sentinel_name.
  - intros H a Ha. apply filter_In in Ha as [Ha Hs].
    apply not_sentinel_name in Hs. auto.
Qed.

(** C1. Whenever every assignment whose name is not "SYS_EXCEPTION_GRADE"
    has its id, the diff returns; and whenever it returns a creation set [c]
    and an update set [u], the update payloads are those of the matched
    assignments, in order, no id is both among the created and among the
    updated, and an id is among the created or the updated exactly when it
    is the id of an assignment of the input whose name is not
    "SYS_EXCEPTION_GRADE". *)
Theorem reconcile_partition (A : list Assignment.t) (E : ExistingAssignments)
    (k : nat) :
  ((forall a, In a A -> Assignment.name a <> Some "SYS_EXCEPTION_GRADE" ->
              is_Some (Assignment.id a)) ->
   exists c u k', reconcile clock A E k = Ok ((c, u), k')) /\
  forall c u k',
    reconcile clock A E k = Ok ((c, u), k') ->
    let created := List.map NewPage.Assignment_Id c in
    let updated := List.map Assignment.id (matched A E) in
    Forall2 (updated_payload E) (matched A E) u /\
    (forall i, In i created -> ~ In i updated) /\
    (forall i, In i created \/ In i updated <->
               exists a, In a A /\
                         Assignment.name a <> Some "SYS_EXCEPTION_GRADE" /\
                         Assignment.id a = i).
Proof.
  split; [intros Hids; now apply reconcile_returns, ids_present_named |].
  intros c u k' H created updated. subst created updated.
  apply reconcile_inv in H as (newEntries & Hpay & Hids & -> & Hupd).
  split; [assumption |]. split.
  - intros i Hc Hu. apply (created_ids E _ _ i Hpay) in Hc.
    apply updated_ids in Hu. tauto.
  - intros i. rewrite <- named_ids.
    rewrite (created_ids E _ _ i Hpay), updated_ids. split; [tauto |].
    intros Hin. destruct (known_dec E i) as [Hk | Hk]; [tauto |].
    left. repeat split; try assumption.
    unfold ids_present in Hids. rewrite List.Forall_forall in Hids.
    apply in_map_iff in Hin as (a & <- & Ha). auto.
Qed.

(** *** Pages the lookup leaves out *)

Lemma assignmentIds_without (l1 l2 : list QueryResult) (page : QueryResult) :
  push_existing [] page = [] ->
  assignmentIds (getExistingAssignments (l1 ++ page :: l2))
  = assignmentIds (getExistingAssignments (l1 ++ l2)).
Proof.
  intros H. rewrite !assignmentIds_flat_map, !flat_map_app. simpl.
  now rewrite H.
Qed.

(** C7. A page whose "Assignment Id" property is missing or of a type
    other than number contributes nothing to the lookup: the lookup, and
    so the whole diff, is what it is without the page, and unless another
    row carries the same page id that id is no [pageId] of the lookup. *)
Theorem non_number_page_ignored (pid : string)
    (props : gmap string PropertyValue) (l1 l2 : list QueryResult) :
  (forall v, props !! "Assignment Id" = Some v -> property_type v <> TNumber) ->
  assignmentIds (getExistingAssignments (l1 ++ FullPage pid props :: l2))
  = assignmentIds (getExistingAssignments (l1 ++ l2)) /\
  (forall A k,
      reconcile clock A (getExistingAssignments (l1 ++ FullPage pid props :: l2)) k
      = reconcile clock A (getExistingAssignments (l1 ++ l2)) k) /\
  ((forall r, In r (l1 ++ l2) -> page_id_of r <> pid) ->
   ~ In pid (List.map pageId
               (assignmentIds
                  (getExistingAssignments (l1 ++ FullPage pid props :: l2))))).
Proof.
  intros Htype.
  assert (Heq : assignmentIds (getExistingAssignments (l1 ++ FullPage pid props :: l2))
                = assignmentIds (getExistingAssignments (l1 ++ l2))).
  { apply assignmentIds_without. now apply push_existing_not_number. }
  split; [exact Heq |]. split.
  - intros A k. now apply reconcile_lookup_only.
  - intros Hother Hin. rewrite Heq in Hin.
    apply in_map_iff in Hin as (o & Ho & Hin).
    apply assignmentIds_entry in Hin as (pid' & props' & z & Hpage & _ & _ & ->).
    simpl in Ho. subst pid'. now apply (Hother _ Hpage).
Qed.

Lemma zero_not_known (results : list QueryResult) :
  ~ known (getExistingAssignments results) (Some 0).
Proof.
  intros (n & [= <-] & Hin). apply in_map_iff in Hin as (o & Ho & Hin).
  apply assignmentIds_entry in Hin as (pid & props & z & _ & _ & Hz & ->).
  cbn [assignmentId] in Ho. apply Hz. unfold Number_toString in Ho.
  now apply (inj pretty z 0).
Qed.

Lemma Forall2_In_left {X Y} (R : X -> Y -> Prop) (l : list X) (l' : list Y) (x : X) :
  Forall2 R l l' -> In x l -> exists y, In y l' /\ R x y.
Proof.
  induction 1 as [| a b l l' Hab _ IH]; simpl; [tauto |].
  intros [<- | Hin]; [eauto |]. destruct (IH Hin) as (y & Hy & Hxy). eauto.
Qed.

(** C10. A page whose "Assignment Id" is of number type but holds [null] or
    [0] contributes nothing to the lookup; and whatever rows the database
    holds, a run that returns has a creation payload for every assignment
    of id [0] that is not the sentinel. *)
Theorem zero_id_page_excluded (pid : string) (props : gmap string PropertyValue)
    (n : option Z) (l1 l2 : list QueryResult) :
  props !! "Assignment Id" = Some (PNumber n) ->
  n = None \/ n = Some 0 ->
  assignmentIds (getExistingAssignments (l1 ++ FullPage pid props :: l2))
  = assignmentIds (getExistingAssignments (l1 ++ l2)) /\
  (forall A a k c u k',
      In a A -> not_sentinel a = true -> Assignment.id a = Some 0 ->
      reconcile clock A (getExistingAssignments (l1 ++ FullPage pid props :: l2)) k
      = Ok ((c, u), k') ->
      exists p, In p c /\ new_payload a p).
Proof.
  intros Hprop Hn. split.
  - apply assignmentIds_without. apply (push_existing_falsy pid props n Hprop).
    destruct Hn as [-> | ->]; reflexivity.
  - intros A a k c u k' Ha Hsent Hid H.
    apply reconcile_inv in H as (newEntries & Hpay & _ & -> & _).
    assert (Hin : In a (List.filter not_sentinel A)) by (apply filter_In; auto).
    destruct (Forall2_In_left _ _ _ _ Hpay Hin) as (p & Hp & Hap).
    exists p. split; [| assumption]. apply filter_In. split; [assumption |].
    destruct Hap as (_ & Hpid & _). apply fresh_entry_true.
    rewrite Hpid, Hid. split; [eauto | apply zero_not_known].
Qed.

(** *** A second run *)

Lemma created_page_number (pid : string) (p : NewPage.t) (id' : string)
    (props : gmap string PropertyValue) :
  created_page pid p = FullPage id' props ->
  props !! "Assignment Id" = Some (PNumber (NewPage.Assignment_Id p)).
Proof. intros [= _ <-]. reflexivity. Qed.

Lemma known_page (results : list QueryResult) (n : Z) :
  known (getExistingAssignments results) (Some n) <->
  n <> 0 /\ exists pid props,
    In (FullPage pid props) results /\
    props !! "Assignment Id" = Some (PNumber (Some n)).
Proof.
  split.
  - intros (m & [= <-] & Hin). apply in_map_iff in Hin as (o & Ho & Hin).
    apply assignmentIds_entry in Hin as (pid & props & z & Hpage & Hprop & Hz & ->).
    cbn [assignmentId] in Ho. unfold Number_toString in Ho.
    apply (inj pretty) in Ho. subst z. eauto.
  - intros (Hn & pid & props & Hpage & Hprop). exists n. split; [reflexivity |].
    apply in_map_iff.
    exists {| assignmentId := Number_toString n; pageId := pid |}.
    split; [reflexivity |]. apply assignmentIds_entry. exists pid, props, n. auto.
Qed.

(** Where the second run does create nothing: when the rows of the second
    run are those of the first and the pages the first run created, and no
    assignment that is not the sentinel has the id [0].  The updates of the
    second run then go to ids that have a row. *)
Lemma second_run_creates_nothing (A : list Assignment.t)
    (results results' : list QueryResult) (k1 k1' k2 : nat)
    (c1 : list NewPage.t) (u1 : list UpdatedPage.t) :
  reconcile clock A (getExistingAssignments results) k1 = Ok ((c1, u1), k1') ->
  (forall r, In r results -> In r results') ->
  (forall p, In p c1 -> exists pid, In (created_page pid p) results') ->
  (forall a, In a A -> not_sentinel a = true -> Assignment.id a <> Some 0) ->
  exists u2 k2',
    reconcile clock A (getExistingAssignments results') k2 = Ok (([], u2), k2') /\
    forall i, In i (List.map Assignment.id (matched A (getExistingAssignments results'))) ->
      exists n pid props,
        i = Some n /\ In (FullPage pid props) results' /\
        props !! "Assignment Id" = Some (PNumber (Some n)).
Proof.
  intros Hrun1 Hkeep Hcreated Hnonzero.
  pose proof Hrun1 as Hinv.
  apply reconcile_inv in Hinv as (newEntries & Hpay & Hids & -> & _).
  destruct (reconcile_returns A (getExistingAssignments results') k2 Hids)
    as (c2 & u2 & k2' & Hrun2).
  assert (Hc2 : c2 = []).
  { pose proof Hrun2 as Hinv2.
    apply reconcile_inv in Hinv2 as (newEntries2 & Hpay2 & _ & -> & _).
    destruct (List.filter _ newEntries2) as [| p2 rest] eqn:Hf; [reflexivity |].
    exfalso.
    assert (Hp2 : In p2 (List.filter (fresh_entry (getExistingAssignments results'))
                           newEntries2)) by (rewrite Hf; now left).
    apply (in_map NewPage.Assignment_Id) in Hp2.
    apply (created_ids _ _ _ _ Hpay2) in Hp2 as (Hin & [n Hn] & Hfresh).
    apply Hfresh. rewrite Hn in *. apply known_page.
    assert (Hn0 : n <> 0).
    { apply in_map_iff in Hin as (a & Hid & Ha). apply filter_In in Ha as [Ha Hs].
      intros ->. now apply (Hnonzero a Ha Hs). }
    split; [assumption |].
    destruct (known_dec (getExistingAssignments results) (Some n)) as [Hk | Hk].
    - apply known_page in Hk as (_ & pid & props & Hpage & Hprop). eauto.
    - assert (Hc : In (Some n)
                     (List.map NewPage.Assignment_Id
                        (List.filter (fresh_entry (getExistingAssignments results))
                           newEntries))).
      { apply (created_ids _ _ _ _ Hpay). eauto. }
      apply in_map_iff in Hc as (p & Hpid & Hp).
      destruct (Hcreated p Hp) as (pid & Hpage).
      exists pid, (NewPage.to_properties p). split; [exact Hpage |].
      rewrite <- Hpid. now apply (created_page_number pid p pid). }
  subst c2. exists u2, k2'. split; [exact Hrun2 |].
  intros i Hi. apply updated_ids in Hi as [_ (n & -> & Hin)].
  assert (Hk : known (getExistingAssignments results') (Some n)) by (exists n; auto).
  apply known_page in Hk as (_ & pid & props & Hpage & Hprop). eauto 6.
Qed.

(** *** The requests *)

(** The update request carries the due date and nothing else; the name,
    the assignment id and the subject id are never part of it. *)
Lemma update_call_properties (page : UpdatedPage.t) :
  update_properties (update_call page)
  = {[ "Due Date" := PDate (Some (UpdatedPage.Due_Date (UpdatedPage.properties page))) ]}.
Proof. reflexivity. Qed.

Lemma updated_page_has_url (page : UpdatedPage.t) :
  UpdatedPage.to_properties (UpdatedPage.properties page) !! "Assignment URL"
  = Some (PUrl (UpdatedPage.Assignment_URL (UpdatedPage.properties page))).
Proof. reflexivity. Qed.

End ReconciliationFacts.

(** ** The diff on the sample inputs *)

(** The first scenario of the specification: the sentinel is dropped, the
    other assignment is created. *)
Example scenario_create :
  reconcile Sample.clock [Sample.hw1; Sample.grade] Sample.no_pages 0%nat
  = Ok (([ {| NewPage.Name := "HW1";
              NewPage.Due_Date := "2024-02-01";
              NewPage.Assignment_Id := Some 1;
              NewPage.Subject_Id := "7";
              NewPage.Assignment_URL :=
                Some "https://canvas.example/courses/7/assignments/1" |} ],
         []), 0%nat).
Proof. reflexivity. Qed.

(** The second scenario: an assignment that has a page is updated. *)
Example scenario_update :
  reconcile Sample.clock [Sample.hw1] (getExistingAssignments [Sample.page_p1]) 0%nat
  = Ok (([],
         [ {| UpdatedPage.page_id := "p1";
              UpdatedPage.properties :=
                {| UpdatedPage.Due_Date := "2024-02-01";
                   UpdatedPage.Assignment_URL :=
                     Some "https://canvas.example/courses/7/assignments/1" |} |} ]),
        0%nat).
Proof. reflexivity. Qed.

(** An assignment with no due date takes the reading of the clock. *)
Example scenario_no_due_date :
  reconcile Sample.clock [Sample.hw3] Sample.no_pages 0%nat
  = Ok (([ {| NewPage.Name := "HW3";
              NewPage.Due_Date := "2024-03-01T09:00:00.000Z";
              NewPage.Assignment_Id := Some 3;
              NewPage.Subject_Id := "7";
              NewPage.Assignment_URL := None |} ],
         []), 1%nat).
Proof. reflexivity. Qed.

Lemma reconcile_partition_witness :
  let A := [Sample.hw1; Sample.grade; Sample.hw3] in
  let E := getExistingAssignments [Sample.page_p1] in
  (forall a, In a A -> Assignment.name a <> Some "SYS_EXCEPTION_GRADE" ->
             is_Some (Assignment.id a)) /\
  exists c u k',
    reconcile Sample.clock A E 0%nat = Ok ((c, u), k') /\
    Forall2 (updated_payload E) (matched A E) u /\
    (forall i, In i (List.map NewPage.Assignment_Id c) ->
               ~ In i (List.map Assignment.id (matched A E))) /\
    (forall i, In i (List.map NewPage.Assignment_Id c)
               \/ In i (List.map Assignment.id (matched A E)) <->
               exists a, In a A /\
                         Assignment.name a <> Some "SYS_EXCEPTION_GRADE" /\
                         Assignment.id a = i).
Proof.
  intros A E.
  assert (Hids : forall a, In a A ->
                           Assignment.name a <> Some "SYS_EXCEPTION_GRADE" ->
                           is_Some (Assignment.id a)).
  { intros a [<- | [<- | [<- | []]]] Hname; simpl; eauto. }
  split; [exact Hids |].
  destruct (reconcile_partition Sample.clock A E 0%nat) as [Hret Hpart].
  destruct (Hret Hids) as (c & u & k' & Hrun).
  exists c, u, k'. split; [exact Hrun | exact (Hpart c u k' Hrun)].
Defined.

(** C4, as stated, fails: two records with the id [1] and no page for it give
    two creation payloads with the id [1]. *)
Lemma duplicate_ids_created_twice :
  exists c u k',
    reconcile Sample.clock [Sample.hw1; Sample.hw1_again] Sample.no_pages 0%nat
    = Ok ((c, u), k') /\
    List.map NewPage.Assignment_Id c = [Some 1; Some 1] /\
    ~ List.NoDup (List.map NewPage.Assignment_Id c).
Proof.
  eexists _, _, _. split; [reflexivity |]. split; [reflexivity |].
  simpl. intros H. apply List.NoDup_cons_iff in H as [H _]. apply H. now left.
Qed.

(** C3: an assignment with no id makes the diff throw, at the [toString] of
    [toCreate]; nothing is created. *)
Example reconcile_without_id_throws :
  reconcile Sample.clock [Sample.essay] Sample.no_pages 0%nat = Throw TypeError
  /\ reconcile Sample.clock [Sample.hw1; Sample.essay]
       (getExistingAssignments [Sample.page_p1]) 0%nat = Throw TypeError
  /\ matched [Sample.essay] (getExistingAssignments [Sample.page_p1]) = [].
Proof. repeat split; reflexivity. Qed.

(** C5: the page the first run creates for the id [0] is not in the lookup of
    the second run, which creates it again. *)
Example second_run_recreates_id_zero :
  exists p,
    reconcile Sample.clock [Sample.quiz] Sample.no_pages 0%nat
    = Ok (([p], []), 0%nat) /\
    NewPage.Assignment_Id p = Some 0 /\
    assignmentIds (getExistingAssignments [created_page "p0" p]) = [] /\
    reconcile Sample.clock [Sample.quiz]
      (getExistingAssignments [created_page "p0" p]) 0%nat
    = Ok (([p], []), 0%nat).
Proof. eexists. repeat split; reflexivity. Qed.

(** C2: the payload of the update has the url, the request that is sent has
    the due date only. *)
Example update_request_drops_url :
  sync Sample.clock "db" [Sample.hw1] [Sample.page_p1] 0%nat
  = Ok (([],
         [ {| update_page_id := "p1";
              update_properties := {[ "Due Date" := PDate (Some "2024-02-01") ]} |} ]),
        0%nat)
  /\ forall page,
       UpdatedPage.to_properties (UpdatedPage.properties page) !! "Assignment URL"
       = Some (PUrl (UpdatedPage.Assignment_URL (UpdatedPage.properties page)))
       /\ update_properties (update_call page) !! "Assignment URL" = None.
Proof. split; [reflexivity |]. intros page. split; reflexivity. Qed.

Lemma non_number_page_ignored_witness :
  let props : gmap string PropertyValue := {[ "Assignment Id" := PRichText "3" ]} in
  (forall v, props !! "Assignment Id" = Some v -> property_type v <> TNumber) /\
  assignmentIds (getExistingAssignments ([Sample.page_p1] ++ FullPage "p9" props :: []))
  = assignmentIds (getExistingAssignments ([Sample.page_p1] ++ [])) /\
  (forall A k,
      reconcile Sample.clock A
        (getExistingAssignments ([Sample.page_p1] ++ FullPage "p9" props :: [])) k
      = reconcile Sample.clock A (getExistingAssignments ([Sample.page_p1] ++ [])) k) /\
  ((forall r, In r ([Sample.page_p1] ++ []) -> page_id_of r <> "p9") ->
   ~ In "p9" (List.map pageId
                (assignmentIds
                   (getExistingAssignments
                      ([Sample.page_p1] ++ FullPage "p9" props :: []))))).
Proof.
  intros props.
  assert (Htype : forall v, props !! "Assignment Id" = Some v ->
                            property_type v <> TNumber).
  { intros v Hv. vm_compute in Hv. injection Hv as <-. discriminate. }
  split; [exact Htype |].
  exact (non_number_page_ignored Sample.clock "p9" props [Sample.page_p1] [] Htype).
Defined.

Lemma zero_id_page_excluded_witness :
  let props : gmap string PropertyValue := {[ "Assignment Id" := PNumber (Some 0) ]} in
  props !! "Assignment Id" = Some (PNumber (Some 0)) /\
  assignmentIds (getExistingAssignments ([] ++ FullPage "p0" props :: [])) = [] /\
  exists c u k' p,
    reconcile Sample.clock [Sample.quiz]
      (getExistingAssignments ([] ++ FullPage "p0" props :: [])) 0%nat
    = Ok ((c, u), k') /\
    In p c /\ new_payload Sample.quiz p.
Proof.
  intros props.
  assert (Hprop : props !! "Assignment Id" = Some (PNumber (Some 0))) by reflexivity.
  destruct (zero_id_page_excluded Sample.clock "p0" props (Some 0) [] [] Hprop
              (or_intror eq_refl)) as [Hlookup Hcreate].
  split; [exact Hprop |]. split; [exact Hlookup |].
  assert (Hrun : exists r, reconcile Sample.clock [Sample.quiz]
      (getExistingAssignments ([] ++ FullPage "p0" props :: [])) 0%nat = Ok r).
  { eexists. reflexivity. }
  destruct Hrun as ([[c u] k'] & Hrun).
  destruct (Hcreate [Sample.quiz] Sample.quiz 0%nat c u k'
              (or_introl eq_refl) eq_refl eq_refl Hrun) as (p & Hp & Hpay).
  exists c, u, k', p. split; [exact Hrun | split; assumption].
Defined.

(** ** The credential store *)

Section CredentialStoreFacts.

Variable config : string.

Lemma existsSync_present (path : string * string) (w : World) (contents : string) :
  files w !! path = Some contents -> existsSync path w = (Ok true, w).
Proof.
  intros H. unfold existsSync. rewrite H.
  rewrite bool_decide_eq_true_2 by eauto. reflexivity.
Qed.

Lemma existsSync_absent (path : string * string) (w : World) :
  files w !! path = None -> existsSync path w = (Ok false, w).
Proof.
  intros H. unfold existsSync. rewrite H.
  rewrite bool_decide_eq_false_2; [reflexivity |]. now intros [x Hx].
Qed.

Lemma readFileSync_present (path : string * string) (w : World) (contents : string) :
  files w !! path = Some contents -> readFileSync path w = (Ok contents, w).
Proof. intros H. unfold readFileSync. now rewrite H. Qed.

(** C8, amended. When the file of a secret exists, its getter returns the
    contents of the file as they are, asks nothing and changes nothing. *)
Theorem getter_returns_file_contents (s : Secret) (w : World) (contents : string) :
  files w !! path_join config (secret_file s) = Some contents ->
  getter config s w = (Ok contents, w).
Proof.
  intros H.
  destruct s; simpl in H; simpl;
    unfold getNotionKey, getCanvasKey, getCanvasUrl, io_bind;
    rewrite (existsSync_present _ _ _ H); now apply readFileSync_present.
Qed.

(** What a first run does with the Canvas key: it asks, makes the
    directory, writes the file, returns the answer. *)
Lemma getCanvasKey_first_run (w : World) (answer : string) (rest : list string) :
  files w !! path_join config "canvas.key" = None ->
  stdin w = answer :: rest ->
  getCanvasKey config w
  = (Ok answer,
     {| directories := {[ config ]} ∪ directories w;
        files := <[ path_join config "canvas.key" := answer ]> (files w);
        stdin := rest;
        asked := "What is your Canvas API key?" :: asked w |}).
Proof.
  intros Hfile Hin. unfold getCanvasKey, io_bind.
  rewrite (existsSync_absent _ _ Hfile). unfold prompt. rewrite Hin.
  unfold mkdirSync_recursive, writeFileSync. simpl.
  rewrite bool_decide_eq_true_2 by set_solver. reflexivity.
Qed.

Lemma getCanvasUrl_first_run (w : World) (answer : string) (rest : list string) :
  files w !! path_join config "canvas.url" = None ->
  stdin w = answer :: rest ->
  getCanvasUrl config w
  = (Ok answer,
     {| directories := {[ config ]} ∪ directories w;
        files := <[ path_join config "canvas.url" := answer ]> (files w);
        stdin := rest;
        asked := "What is your Canvas URL?" :: asked w |}).
Proof.
  intros Hfile Hin. unfold getCanvasUrl, io_bind.
  rewrite (existsSync_absent _ _ Hfile). unfold prompt. rewrite Hin.
  unfold mkdirSync_recursive, writeFileSync. simpl.
  rewrite bool_decide_eq_true_2 by set_solver. reflexivity.
Qed.

(** The Notion key is stored when the directory is there already. *)
Lemma getNotionKey_first_run (w : World) (answer : string) (rest : list string) :
  files w !! path_join config "notion.key" = None ->
  stdin w = answer :: rest ->
  config ∈ directories w ->
  getNotionKey config w
  = (Ok answer,
     {| directories := directories w;
        files := <[ path_join config "notion.key" := answer ]> (files w);
        stdin := rest;
        asked := "What is your Notion API key?" :: asked w |}).
Proof.
  intros Hfile Hin Hdir. unfold getNotionKey, io_bind.
  rewrite (existsSync_absent _ _ Hfile). unfold prompt. rewrite Hin.
  unfold writeFileSync. simpl.
  rewrite bool_decide_eq_true_2 by assumption. reflexivity.
Qed.

(** It is lost when the directory is not: [getNotionKey] has no
    [mkdirSync], the write fails and the answer is neither stored nor
    returned. *)
Lemma getNotionKey_no_directory (w : World) (answer : string) (rest : list string) :
  files w !! path_join config "notion.key" = None ->
  stdin w = answer :: rest ->
  config ∉ directories w ->
  getNotionKey config w
  = (Throw ENOENT,
     {| directories := directories w;
        files := files w;
        stdin := rest;
        asked := "What is your Notion API key?" :: asked w |}).
Proof.
  intros Hfile Hin Hdir. unfold getNotionKey, io_bind.
  rewrite (existsSync_absent _ _ Hfile). unfold prompt. rewrite Hin.
  unfold writeFileSync. simpl.
  rewrite bool_decide_eq_false_2 by assumption. reflexivity.
Qed.

End CredentialStoreFacts.

Example trim_samples :
  trim Sample.key_line = "s3cr3t" /\ trim "  a b  " = "a b" /\ trim "" = "".
Proof. repeat split; reflexivity. Qed.

Lemma getter_returns_file_contents_witness :
  files Sample.later_run !! path_join Sample.config (secret_file NotionKey)
  = Some Sample.key_line /\
  getter Sample.config NotionKey Sample.later_run
  = (Ok Sample.key_line, Sample.later_run).
Proof.
  assert (H : files Sample.later_run !! path_join Sample.config (secret_file NotionKey)
              = Some Sample.key_line) by reflexivity.
  split; [exact H |].
  exact (getter_returns_file_contents Sample.config NotionKey Sample.later_run
           Sample.key_line H).
Defined.

(** C8, as stated, fails: the file exists and the getter returns its
    contents with the line feed, which are not the trimmed contents. *)
Lemma getter_does_not_trim :
  exists contents,
    files Sample.later_run !! path_join Sample.config (secret_file NotionKey)
    = Some contents /\
    getter Sample.config NotionKey Sample.later_run <> (Ok (trim contents), Sample.later_run).
Proof.
  exists Sample.key_line. split; [reflexivity |].
  intros H. vm_compute in H. discriminate H.
Qed.

(** C9: on a first run with no configuration directory [getNotionKey] asks
    and then fails at the write, where [getCanvasKey] and [getCanvasUrl]
    make the directory and store the answer. *)
Example getNotionKey_first_run_fails :
  getNotionKey Sample.config Sample.first_run
  = (Throw ENOENT,
     {| directories := ∅; files := ∅; stdin := [];
        asked := ["What is your Notion API key?"] |})
  /\ getCanvasKey Sample.config Sample.first_run
     = (Ok "s3cr3t",
        {| directories := {[ Sample.config ]};
           files := {[ path_join Sample.config "canvas.key" := "s3cr3t" ]};
           stdin := []; asked := ["What is your Canvas API key?"] |})
  /\ getCanvasUrl Sample.config Sample.first_run
     = (Ok "s3cr3t",
        {| directories := {[ Sample.config ]};
           files := {[ path_join Sample.config "canvas.url" := "s3cr3t" ]};
           stdin := []; asked := ["What is your Canvas URL?"] |}).
Proof. repeat split; reflexivity. Qed.

(** * Further properties of the script *)

(** ** The diff *)

Lemma filter_filter_and {X} (f g : X -> bool) (l : list X) :
  List.filter g (List.filter f l) = List.filter (fun x => f x && g x) l.
Proof.
  induction l as [| x l IH]; simpl; [reflexivity |].
  destruct (f x); simpl; [destruct (g x); now rewrite IH | assumption].
Qed.

Lemma matched_unmatched_length (A : list Assignment.t) (E : ExistingAssignments) :
  (length (unmatched A E) + length (matched A E))%nat
  = length (List.filter not_sentinel A).
Proof.
  unfold unmatched, matched.
  rewrite <- (filter_length
                (fun a => bool_decide (is_Some (find_existing E a)))
                (List.filter not_sentinel A)).
  rewrite !filter_filter_and. apply Nat.add_comm.
Qed.


Section ReconciliationMore.

Variable clock : nat -> string.

Lemma fresh_entry_unmatched (E : ExistingAssignments) (a : Assignment.t)
    (p : NewPage.t) :
  new_payload a p ->
  is_Some (Assignment.id a) ->
  fresh_entry E p = negb (bool_decide (is_Some (find_existing E a))).
Proof.
  intros (_ & Hid & _) Hsome.
  destruct (fresh_entry E p) eqn:Hf;
    destruct (bool_decide (is_Some (find_existing E a))) eqn:Hm;
    try reflexivity; exfalso.
  - apply fresh_entry_true in Hf as [_ Hf]. apply bool_decide_eq_true in Hm.
    apply find_existing_known in Hm. now rewrite Hid in Hf.
  - apply bool_decide_eq_false in Hm.
    assert (Hfresh : fresh_entry E p = true).
    { apply fresh_entry_true. rewrite Hid. split; [assumption |].
      intros Hk. apply Hm. now apply find_existing_known. }
    congruence.
Qed.

Lemma created_in_order (E : ExistingAssignments) (l : list Assignment.t)
    (ps : list NewPage.t) :
  Forall2 new_payload l ps ->
  Forall (fun a => is_Some (Assignment.id a)) l ->
  Forall2 new_payload
    (List.filter (fun a => negb (bool_decide (is_Some (find_existing E a)))) l)
    (List.filter (fresh_entry E) ps).
Proof.
  induction 1 as [| a p l ps Hap _ IH]; intros Hl; simpl; [constructor |].
  inversion Hl as [| ? ? Ha Hl']; subst.
  rewrite (fresh_entry_unmatched E a p Hap Ha).
  destruct (negb _); [constructor |]; auto.
Qed.

(** What a run that returns has computed, list by list. *)
Lemma reconcile_lists (A : list Assignment.t) (E : ExistingAssignments)
    (k k' : nat) (c : list NewPage.t) (u : list UpdatedPage.t) :
  reconcile clock A E k = Ok ((c, u), k') ->
  Forall2 new_payload (unmatched A E) c /\
  Forall2 (updated_payload E) (matched A E) u.
Proof.
  intros H. apply reconcile_inv in H as (newEntries & Hpay & Hids & -> & Hupd).
  split; [| assumption].
  unfold unmatched. rewrite <- filter_filter_and.
  now apply created_in_order.
Qed.



(** X3. No creation payload is named "SYS_EXCEPTION_GRADE". *)
Theorem sentinel_never_created (A : list Assignment.t) (E : ExistingAssignments)
    (k k' : nat) (c : list NewPage.t) (u : list UpdatedPage.t) :
  reconcile clock A E k = Ok ((c, u), k') ->
  forall p, In p c -> NewPage.Name p <> SYS_EXCEPTION_GRADE.
Proof.
  intros H p Hp. apply reconcile_lists in H as [Hc _].
  apply Forall2_flip in Hc.
  destruct (Forall2_In_left _ _ _ _ Hc Hp) as (a & Ha & Hap).
  unfold flip in Hap. destruct Hap as (Hname & _).
  apply filter_In in Ha as [_ Ha]. apply andb_true_iff in Ha as [Hs _].
  unfold not_sentinel in Hs. apply negb_true_iff, bool_decide_eq_false in Hs.
  rewrite Hname. destruct (Assignment.name a) as [n |]; simpl.
  - intros ->. now apply Hs.
  - discriminate.
Qed.

(** *** Readings of the clock *)

Lemma assignmentToNewPage_clock (a : Assignment.t) (k : nat) (p : NewPage.t)
    (k' : nat) :
  assignmentToNewPage clock a k = Ok (p, k') ->
  k' = (k + (if no_due_date a then 1 else 0))%nat.
Proof.
  unfold assignmentToNewPage, no_due_date. intros H.
  apply bind_Ok_inv in H as (s & k1 & Hs & H). injection H as _ <-.
  destruct (Assignment.due_at a) as [d |]; simpl in Hs; injection Hs as _ <-;
    simpl; lia.
Qed.

Lemma assignmentToUpdatedPage_clock (r : Assignment.t * string) (k : nat)
    (p : UpdatedPage.t) (k' : nat) :
  assignmentToUpdatedPage clock r k = Ok (p, k') ->
  k' = (k + (if no_due_date (fst r) then 1 else 0))%nat.
Proof.
  unfold assignmentToUpdatedPage, no_due_date. intros H.
  apply bind_Ok_inv in H as (s & k1 & Hs & H). injection H as _ <-.
  destruct (Assignment.due_at (fst r)) as [d |]; simpl in Hs; injection Hs as _ <-;
    simpl; lia.
Qed.

Lemma mapM_clock {X Y} (f : X -> M Y) (g : X -> bool) :
  (forall x k y k', f x k = Ok (y, k') -> k' = (k + (if g x then 1 else 0))%nat) ->
  forall l k ys k', mapM f l k = Ok (ys, k') ->
                    k' = (k + length (List.filter g l))%nat.
Proof.
  intros Hf. induction l as [| x l IH]; intros k ys k' H; simpl in H.
  - injection H as _ <-. simpl. lia.
  - apply bind_Ok_inv in H as (y & k1 & Hy & H).
    apply bind_Ok_inv in H as (ys' & k2 & Hys & H). injection H as _ <-.
    apply Hf in Hy. apply IH in Hys. simpl. destruct (g x); simpl; lia.
Qed.

Lemma with_pageId_fst (E : ExistingAssignments) (l : list Assignment.t)
    (rs : list (Assignment.t * string)) :
  Forall2 (fun a r => fst r = a /\ pageId <$> find_existing E a = Some (snd r)) l rs ->
  List.map fst rs = l.
Proof.
  induction 1 as [| a r l rs [Hr _] _ IH]; simpl; [reflexivity |].
  now rewrite Hr, IH.
Qed.

Lemma with_pageId_clock (E : ExistingAssignments) (l : list Assignment.t)
    (rs : list (Assignment.t * string)) (k k' : nat) :
  mapM (with_pageId E) l k = Ok (rs, k') -> k' = k.
Proof.
  intros H.
  apply (mapM_clock (with_pageId E) (fun _ => false)) in H.
  - rewrite H. clear H. induction l; simpl; lia.
  - intros a k0 r k0' Hr. unfold with_pageId in Hr.
    destruct (find_existing E a); [| discriminate]. injection Hr as _ <-. lia.
Qed.

(** A [map] of a callback that only moves the clock forward: where each
    call started and ended. *)
Lemma mapM_Forall2_from {X Y} (f : X -> M Y) :
  (forall x k y k', f x k = Ok (y, k') -> (k <= k')%nat) ->
  forall l k ys k',
    mapM f l k = Ok (ys, k') ->
    (k <= k')%nat /\
    Forall2 (fun x y => exists k0 k1,
                 (k <= k0)%nat /\ (k1 <= k')%nat /\ f x k0 = Ok (y, k1)) l ys.
Proof.
  intros Hf. induction l as [| x l IH]; intros k ys k' H; simpl in H.
  - injection H as <- <-. split; [lia | constructor].
  - apply bind_Ok_inv in H as (y & k1 & Hy & H).
    apply bind_Ok_inv in H as (ys' & k2 & Hys & H). injection H as <- <-.
    pose proof (Hf _ _ _ _ Hy) as Hle. apply IH in Hys as [Hle' Hys].
    split; [lia |]. constructor.
    + exists k, k1. repeat split; [lia | lia | assumption].
    + eapply Forall2_impl; [exact Hys |].
      intros a b (k0 & k3 & H0 & H3 & Hab). exists k0, k3.
      repeat split; [lia | lia | assumption].
Qed.

Lemma created_in_order_gen (R : Assignment.t -> NewPage.t -> Prop)
    (E : ExistingAssignments) (l : list Assignment.t) (ps : list NewPage.t) :
  (forall a p, R a p -> new_payload a p) ->
  Forall2 R l ps ->
  Forall (fun a => is_Some (Assignment.id a)) l ->
  Forall2 R
    (List.filter (fun a => negb (bool_decide (is_Some (find_existing E a)))) l)
    (List.filter (fresh_entry E) ps).
Proof.
  intros HR. induction 1 as [| a p l ps Hap _ IH]; intros Hl; simpl; [constructor |].
  inversion Hl as [| ? ? Ha Hl']; subst.
  rewrite (fresh_entry_unmatched E a p (HR a p Hap) Ha).
  destruct (negb _); [constructor |]; auto.
Qed.

(** Where the due date of each payload of a run comes from: [due_at], or a
    reading of the clock; the readings of the creation payloads, those that
    are then dropped included, come first, those of the update payloads
    after them. *)
Lemma reconcile_readings (A : list Assignment.t) (E : ExistingAssignments)
    (k k' : nat) (c : list NewPage.t) (u : list UpdatedPage.t) :
  reconcile clock A E k = Ok ((c, u), k') ->
  let n1 := length (List.filter no_due_date (List.filter not_sentinel A)) in
  let n2 := length (List.filter no_due_date (matched A E)) in
  k' = (k + n1 + n2)%nat /\
  Forall2
    (fun a p =>
       new_payload a p /\
       (Assignment.due_at a = None ->
        exists j, (k <= j < k + n1)%nat /\ NewPage.Due_Date p = clock j))
    (unmatched A E) c /\
  Forall2
    (fun a p =>
       updated_payload E a p /\
       (Assignment.due_at a = None ->
        exists j, (k + n1 <= j < k')%nat /\
                  UpdatedPage.Due_Date (UpdatedPage.properties p) = clock j))
    (matched A E) u.
Proof.
  intros H n1 n2. pose proof H as Hinv.
  apply reconcile_inv in Hinv as (_ & _ & Hids & _ & _).
  unfold reconcile in H.
  apply bind_Ok_inv in H as (newEntries & k1 & Hnew & H).
  apply bind_Ok_inv in H as (withPage & k2 & Hwith & H).
  apply bind_Ok_inv in H as (updatedEntries & k3 & Hupd & H).
  apply bind_Ok_inv in H as (toCreate & k4 & Hcreate & H).
  injection H as <- <- <-.
  apply filterM_is_new_inv in Hcreate as (-> & _ & ->).
  pose proof (mapM_clock _ no_due_date (assignmentToNewPage_clock) _ _ _ _ Hnew) as Hk1.
  pose proof (with_pageId_clock _ _ _ _ _ Hwith) as ->.
  apply (mapM_Forall2 _ _ (fun a k r k' => with_pageId_inv E a k k' r)) in Hwith.
  pose proof (with_pageId_fst _ _ _ Hwith) as Hfst.
  pose proof (mapM_clock _ (fun r => no_due_date (fst r))
                (assignmentToUpdatedPage_clock) _ _ _ _ Hupd) as Hk3.
  assert (Hn2 : length (List.filter (fun r => no_due_date (fst r)) withPage) = n2).
  { subst n2. rewrite <- Hfst. clear.
    induction withPage as [| r l IH]; simpl; [reflexivity |].
    destruct (no_due_date (fst r)); simpl; now rewrite IH. }
  rewrite Hn2 in Hk3. fold n1 in Hk1.
  split; [lia |]. split.
  - apply mapM_Forall2_from in Hnew as [_ Hnew];
      [| intros a k0 p k0' Hp; apply assignmentToNewPage_clock in Hp; lia].
    unfold unmatched. rewrite <- filter_filter_and.
    apply created_in_order_gen; [tauto | | exact Hids].
    eapply Forall2_impl; [exact Hnew |].
    intros a p (k0 & k0' & Hlo & Hhi & Hp).
    split; [eapply assignmentToNewPage_payload; exact Hp |].
    intros Hdue.
    destruct (assignmentToNewPage_due_default clock a k0 Hdue) as (p' & Hp' & Hdate).
    rewrite Hp' in Hp. injection Hp as <- <-. exists k0. split; [lia | assumption].
  - apply mapM_Forall2_from in Hupd as [_ Hupd];
      [| intros r k0 p k0' Hp; apply assignmentToUpdatedPage_clock in Hp; lia].
    eapply Forall2_trans; [| exact Hwith | exact Hupd].
    intros a r p Har (k0 & k0' & Hlo & Hhi & Hp). simpl in Har.
    split; [exact (assignmentToUpdatedPage_payload clock E a r k0 k0' p Har Hp) |].
    destruct Har as [<- _]. intros Hdue.
    destruct (assignmentToUpdatedPage_due_default clock r k0 Hdue) as (p' & Hp' & Hdate).
    rewrite Hp' in Hp. injection Hp as <- <-. exists k0. split; [lia | assumption].
Qed.

(** X4. A run that returns has read the clock once for every assignment
    without a due date whose name is not the sentinel, those that have an
    entry in the lookup included, and then once more for each of these
    last.  The due date of a creation payload made without a due date is one
    of the first readings, that of such an update payload one of the
    readings after them: the creation payloads are all built, readings
    included, before any update payload is. *)
Theorem reconcile_clock_readings (A : list Assignment.t) (E : ExistingAssignments)
    (k k' : nat) (c : list NewPage.t) (u : list UpdatedPage.t) :
  reconcile clock A E k = Ok ((c, u), k') ->
  let n1 := length (List.filter no_due_date (List.filter not_sentinel A)) in
  let n2 := length (List.filter no_due_date (matched A E)) in
  k' = (k + n1 + n2)%nat /\
  Forall2
    (fun a p =>
       Assignment.due_at a = None ->
       exists j, (k <= j < k + n1)%nat /\ NewPage.Due_Date p = clock j)
    (unmatched A E) c /\
  Forall2
    (fun a p =>
       Assignment.due_at a = None ->
       exists j, (k + n1 <= j < k')%nat /\
                 UpdatedPage.Due_Date (UpdatedPage.properties p) = clock j)
    (matched A E) u.
Proof.
  intros H n1 n2. apply reconcile_readings in H as (Hk & Hc & Hu).
  split; [exact Hk |].
  split; (eapply Forall2_impl; [eassumption |]); intros a p [_ Hp]; exact Hp.
Qed.

(** C6. For an assignment whose [due_at] is null or absent, whatever holds
    of every reading of the clock from the call on (to be the text of a valid
    ISO 8601 timestamp no earlier than the time of the call) holds of the due
    date of the payload: of the creation payload and of the update payload
    the two functions make, which carry the reading made during the call, and
    of every such creation and update payload of a run of the diff. *)
Theorem due_date_defaults_to_now (P : string -> Prop) :
  (forall a pageId k,
      Assignment.due_at a = None ->
      (forall j, (k <= j)%nat -> P (clock j)) ->
      exists p u,
        assignmentToNewPage clock a k = Ok (p, S k) /\
        NewPage.Due_Date p = clock k /\ P (NewPage.Due_Date p) /\
        assignmentToUpdatedPage clock (a, pageId) k = Ok (u, S k) /\
        UpdatedPage.Due_Date (UpdatedPage.properties u) = clock k /\
        P (UpdatedPage.Due_Date (UpdatedPage.properties u))) /\
  (forall A E k c u k',
      reconcile clock A E k = Ok ((c, u), k') ->
      (forall j, (k <= j)%nat -> P (clock j)) ->
      Forall2
        (fun a p => new_payload a p /\
                    (Assignment.due_at a = None -> P (NewPage.Due_Date p)))
        (unmatched A E) c /\
      Forall2
        (fun a p => updated_payload E a p /\
                    (Assignment.due_at a = None ->
                     P (UpdatedPage.Due_Date (UpdatedPage.properties p))))
        (matched A E) u).
Proof.
  split.
  - intros a pageId k Hdue HP.
    destruct (assignmentToNewPage_due_default clock a k Hdue) as (p & Hp & Hdate).
    destruct (assignmentToUpdatedPage_due_default clock (a, pageId) k Hdue)
      as (u & Hu & Hdate').
    exists p, u. rewrite Hdate, Hdate'.
    repeat split; try assumption; apply HP; lia.
  - intros A E k c u k' H HP. apply reconcile_readings in H as (_ & Hc & Hu).
    split; (eapply Forall2_impl; [eassumption |]); intros a p [Hpay Hdate];
      (split; [exact Hpay |]); intros Hdue;
      destruct (Hdate Hdue) as (j & Hj & ->); apply HP; lia.
Qed.

(** *** Ids that occur more than once *)

Lemma filter_length_le_impl {X} (f g : X -> bool) (l : list X) :
  (forall x, In x l -> f x = true -> g x = true) ->
  (length (List.filter f l) <= length (List.filter g l))%nat.
Proof.
  induction l as [| x l IH]; intros H; simpl; [lia |].
  assert (IH' : (length (List.filter f l) <= length (List.filter g l))%nat).
  { apply IH. intros y Hy. apply H. now right. }
  destruct (f x) eqn:Hf.
  - rewrite (H x (or_introl eq_refl) Hf). simpl. lia.
  - destruct (g x); simpl; lia.
Qed.

Lemma filter_length_pos {X} (f : X -> bool) (l : list X) (x : X) :
  In x l -> f x = true -> (1 <= length (List.filter f l))%nat.
Proof.
  induction l as [| y l IH]; simpl; [tauto |].
  intros [-> | Hin] Hf.
  - rewrite Hf. simpl. lia.
  - destruct (f y); simpl; [lia | auto].
Qed.

Lemma NoDup_by_count {X Y} `{EqDecision Y} (f : X -> Y) (l : list X) :
  (forall y, (length (List.filter (fun x => bool_decide (f x = y)) l) <= 1)%nat) ->
  List.NoDup (List.map f l).
Proof.
  induction l as [| x l IH]; intros H; simpl; [constructor |].
  apply List.NoDup_cons.
  - intros Hin. apply in_map_iff in Hin as (x' & Heq & Hin).
    specialize (H (f x)). simpl in H.
    rewrite bool_decide_eq_true_2 in H by reflexivity. simpl in H.
    pose proof (filter_length_pos (fun x0 => bool_decide (f x0 = f x)) l x' Hin
                  (bool_decide_eq_true_2 _ Heq)).
    lia.
  - apply IH. intros y. specialize (H y). simpl in H.
    destruct (bool_decide (f x = y)); simpl in H; lia.
Qed.

Lemma unmatched_In (A : list Assignment.t) (E : ExistingAssignments)
    (a : Assignment.t) :
  In a (unmatched A E) <->
  In a A /\ Assignment.name a <> Some "SYS_EXCEPTION_GRADE"
  /\ ~ known E (Assignment.id a).
Proof.
  unfold unmatched.
  rewrite filter_In, andb_true_iff, negb_true_iff, bool_decide_eq_false.
  rewrite find_existing_known, not_sentinel_name. tauto.
Qed.

(** C4, amended. In a run that returns, an id that has an entry in the
    lookup gets no creation payload, however often it occurs in the input;
    and when no id without an entry in the lookup occurs more than once
    among the assignments whose name is not "SYS_EXCEPTION_GRADE", there is
    at most one creation payload per assignment id. *)
Theorem reconcile_creates_once (A : list Assignment.t) (E : ExistingAssignments)
    (k k' : nat) (c : list NewPage.t) (u : list UpdatedPage.t) :
  (forall i,
      ~ known E i ->
      (length
         (List.filter
            (fun a => bool_decide
                        (Assignment.name a <> Some "SYS_EXCEPTION_GRADE"
                         /\ Assignment.id a = i)) A) <= 1)%nat) ->
  reconcile clock A E k = Ok ((c, u), k') ->
  (forall i, known E i -> ~ In i (List.map NewPage.Assignment_Id c)) /\
  List.NoDup (List.map NewPage.Assignment_Id c).
Proof.
  intros Honce H. apply reconcile_lists in H as [Hc _].
  rewrite (new_payload_ids _ _ Hc). split.
  - intros i Hk Hin. apply in_map_iff in Hin as (a & <- & Ha).
    apply unmatched_In in Ha. tauto.
  - apply NoDup_by_count. intros i.
    destruct (known_dec E i) as [Hk | Hk].
    + assert (Hnone : List.filter (fun a => bool_decide (Assignment.id a = i))
                        (unmatched A E) = []).
      { destruct (List.filter _ (unmatched A E)) as [| a l] eqn:Hf; [reflexivity |].
        exfalso.
        assert (Ha : In a (List.filter (fun a => bool_decide (Assignment.id a = i))
                             (unmatched A E))) by (rewrite Hf; now left).
        apply filter_In in Ha as [Ha Hid]. apply bool_decide_eq_true in Hid.
        apply unmatched_In in Ha. rewrite Hid in Ha. tauto. }
      rewrite Hnone. simpl. lia.
    + etransitivity; [| exact (Honce i Hk)].
      unfold unmatched. rewrite filter_filter_and.
      apply filter_length_le_impl. intros a _ Ha.
      apply andb_true_iff in Ha as [Ha Hid]. apply andb_true_iff in Ha as [Hs _].
      apply bool_decide_eq_true in Hid. apply not_sentinel_name in Hs.
      apply bool_decide_eq_true_2. auto.
Qed.

(** *** The rows the updates go to *)

Lemma find_existing_row (results : list QueryResult) (a : Assignment.t)
    (o : AssignmentObj) :
  find_existing (getExistingAssignments results) a = Some o ->
  exists props n,
    Assignment.id a = Some n /\ n <> 0 /\
    In (FullPage (pageId o) props) results /\
    props !! "Assignment Id" = Some (PNumber (Some n)).
Proof.
  unfold find_existing. intros H. apply find_some in H as [Hin Hsame].
  apply assignmentIds_entry in Hin as (pid & props & z & Hpage & Hprop & Hz & ->).
  unfold same_id in Hsame. apply bool_decide_eq_true in Hsame.
  destruct (Assignment.id a) as [n |]; [| discriminate].
  cbn [assignmentId fmap option_fmap option_map] in Hsame.
  injection Hsame as Hs. unfold Number_toString in Hs.
  apply (inj pretty) in Hs. subst z. exists props, n. auto.
Qed.

(** X5. Every update payload is addressed to a full row of the database
    whose "Assignment Id" is a number, not [0], and the id of the assignment
    the payload was made from. *)
Theorem updates_go_to_rows_of_the_id (A : list Assignment.t)
    (results : list QueryResult) (k k' : nat)
    (c : list NewPage.t) (u : list UpdatedPage.t) :
  reconcile clock A (getExistingAssignments results) k = Ok ((c, u), k') ->
  Forall2
    (fun a p =>
       exists props n,
         Assignment.id a = Some n /\ n <> 0 /\
         In (FullPage (UpdatedPage.page_id p) props) results /\
         props !! "Assignment Id" = Some (PNumber (Some n)))
    (matched A (getExistingAssignments results)) u.
Proof.
  intros H. apply reconcile_lists in H as [_ Hu].
  eapply Forall2_impl; [exact Hu |].
  intros a p (Hpage & _).
  destruct (find_existing (getExistingAssignments results) a) as [o |] eqn:Hf;
    [| discriminate].
  injection Hpage as <-. now apply find_existing_row.
Qed.

Lemma find_app_first {X} (f : X -> bool) (l1 l2 : list X) (x : X) :
  (forall y, In y l1 -> f y = false) ->
  f x = true ->
  List.find f (l1 ++ x :: l2) = Some x.
Proof.
  intros Hl1 Hx. induction l1 as [| y l1 IH]; simpl.
  - now rewrite Hx.
  - rewrite (Hl1 y (or_introl eq_refl)). apply IH.
    intros z Hz. apply Hl1. now right.
Qed.

(** X6. When several rows carry the id of an assignment, the lookup
    resolves it to the first of them in the order of the query. *)
Theorem first_row_wins (l1 l2 : list QueryResult) (pid : string)
    (props : gmap string PropertyValue) (n : Z) (a : Assignment.t) :
  props !! "Assignment Id" = Some (PNumber (Some n)) ->
  n <> 0 ->
  Assignment.id a = Some n ->
  (forall pid' props',
      In (FullPage pid' props') l1 ->
      props' !! "Assignment Id" <> Some (PNumber (Some n))) ->
  find_existing (getExistingAssignments (l1 ++ FullPage pid props :: l2)) a
  = Some {| assignmentId := Number_toString n; pageId := pid |}.
Proof.
  intros Hprop Hn Hid Hl1. unfold find_existing.
  change (l1 ++ FullPage pid props :: l2)
    with (l1 ++ [FullPage pid props] ++ l2).
  rewrite !assignmentIds_app.
  assert (Hrow : assignmentIds (getExistingAssignments [FullPage pid props])
                 = [ {| assignmentId := Number_toString n; pageId := pid |} ]).
  { rewrite assignmentIds_flat_map. cbn [flat_map push_existing].
    rewrite Hprop. apply truthy_number_Some in Hn. rewrite Hn. reflexivity. }
  rewrite Hrow. simpl. apply find_app_first.
  - intros o Ho.
    apply assignmentIds_entry in Ho as (pid' & props' & z & Hpage & Hp & _ & ->).
    unfold same_id. apply bool_decide_eq_false. rewrite Hid.
    cbn [assignmentId fmap option_fmap option_map]. intros [= Hs].
    unfold Number_toString in Hs. apply (inj pretty) in Hs. subst z.
    now apply (Hl1 pid' props').
  - unfold same_id. apply bool_decide_eq_true. now rewrite Hid.
Qed.

(** X7. After a run that returned, a run on the same assignments, against
    rows that are those of the first run and the pages it created, creates
    nothing and makes one update payload for every assignment that is not
    the sentinel, provided none of them has the id [0]. *)
Theorem second_run_updates_everything (A : list Assignment.t)
    (results results' : list QueryResult) (k1 k1' k2 : nat)
    (c1 : list NewPage.t) (u1 : list UpdatedPage.t) :
  reconcile clock A (getExistingAssignments results) k1 = Ok ((c1, u1), k1') ->
  (forall r, In r results -> In r results') ->
  (forall p, In p c1 -> exists pid, In (created_page pid p) results') ->
  (forall a, In a A -> not_sentinel a = true -> Assignment.id a <> Some 0) ->
  exists u2 k2',
    reconcile clock A (getExistingAssignments results') k2 = Ok (([], u2), k2') /\
    length u2 = length (List.filter not_sentinel A).
Proof.
  intros Hrun1 Hkeep Hcreated Hnonzero.
  destruct (second_run_creates_nothing clock A results results' k1 k1' k2 c1 u1
              Hrun1 Hkeep Hcreated Hnonzero) as (u2 & k2' & Hrun2 & _).
  exists u2, k2'. split; [exact Hrun2 |].
  apply reconcile_lists in Hrun2 as [Hc Hu].
  rewrite <- (matched_unmatched_length A (getExistingAssignments results')).
  rewrite (Forall2_length _ _ _ Hc), (Forall2_length _ _ _ Hu). reflexivity.
Qed.

End ReconciliationMore.

(** ** The lookup and the schema *)

(** X8. The lookup has at most one entry for a row, in the order of the
    rows: the page ids of its entries are a sublist of [pageIds], the ids of
    the full pages. *)
Theorem lookup_pages_sublist (results : list QueryResult) :
  List.map pageId (assignmentIds (getExistingAssignments results))
    `sublist_of` pageIds (getExistingAssignments results).
Proof.
  rewrite assignmentIds_flat_map. cbn [getExistingAssignments pageIds].
  induction results as [| [pid props | pid] l IH]; cbn [List.filter hasOwn_properties].
  - constructor.
  - cbn [flat_map List.map page_id_of]. rewrite List.map_app.
    assert (Hrow : List.map pageId (push_existing [] (FullPage pid props)) = []
                   \/ List.map pageId (push_existing [] (FullPage pid props)) = [pid]).
    { cbn [push_existing].
      destruct (props !! "Assignment Id") as [[ | | [z|] | | | | ] | ]; auto.
      destruct (truthy_number (Some z)); auto. }
    destruct Hrow as [-> | ->]; simpl.
    + now apply sublist_cons.
    + now apply sublist_skip.
  - exact IH.
Qed.

(** X9. What the script sends fits the database [newDb] makes: a creation
    request has exactly the columns of the schema, each with a value of the
    type of the column, and an update request only columns of the schema,
    typed likewise. *)
Theorem requests_fit_the_schema (databaseId : string) (page : NewPage.t)
    (updated : UpdatedPage.t) :
  property_type <$> create_properties (create_call databaseId page)
  = newDb_properties /\
  property_type <$> update_properties (update_call updated) ⊆ newDb_properties.
Proof.
  split; [reflexivity |].
  rewrite (update_call_properties updated).
  apply map_subseteq_spec. intros key ty.
  rewrite lookup_fmap, fmap_Some. intros (v & Hv & ->).
  apply lookup_singleton_Some in Hv as [<- <-]. reflexivity.
Qed.

(** ** The diff on further inputs *)

Example scenario_rows :
  reconcile Sample.clock Fixture.assignments
    (getExistingAssignments Fixture.rows) 0%nat
  = Ok (([],
         [ {| UpdatedPage.page_id := "p1";
              UpdatedPage.properties :=
                {| UpdatedPage.Due_Date := "2024-02-01";
                   UpdatedPage.Assignment_URL :=
                     Some "https://canvas.example/courses/7/assignments/1" |} |};
           {| UpdatedPage.page_id := "p3";
              UpdatedPage.properties :=
                {| UpdatedPage.Due_Date := "2024-03-01T09:00:00.000Z";
                   UpdatedPage.Assignment_URL := None |} |} ]),
        2%nat).
Proof. reflexivity. Qed.


Lemma sentinel_never_created_witness :
  exists c u k',
    reconcile Sample.clock [Sample.hw1; Sample.grade; Sample.hw3]
      Sample.no_pages 0%nat = Ok ((c, u), k') /\
    length c = 2%nat /\
    forall p, In p c -> NewPage.Name p <> SYS_EXCEPTION_GRADE.
Proof.
  eexists _, _, _. split; [reflexivity |]. split; [reflexivity |].
  eapply (sentinel_never_created Sample.clock [Sample.hw1; Sample.grade; Sample.hw3]
            Sample.no_pages 0%nat).
  reflexivity.
Defined.

Lemma reconcile_clock_readings_witness :
  exists c u k',
    reconcile Sample.clock Fixture.assignments
      (getExistingAssignments Fixture.rows) 0%nat = Ok ((c, u), k') /\
    k' = 2%nat /\
    let n1 := length (List.filter no_due_date
                        (List.filter not_sentinel Fixture.assignments)) in
    let n2 := length (List.filter no_due_date
                        (matched Fixture.assignments
                           (getExistingAssignments Fixture.rows))) in
    k' = (0 + n1 + n2)%nat /\
    Forall2
      (fun a p =>
         Assignment.due_at a = None ->
         exists j, (0 <= j < 0 + n1)%nat /\ NewPage.Due_Date p = Sample.clock j)
      (unmatched Fixture.assignments (getExistingAssignments Fixture.rows)) c /\
    Forall2
      (fun a p =>
         Assignment.due_at a = None ->
         exists j, (0 + n1 <= j < k')%nat /\
                   UpdatedPage.Due_Date (UpdatedPage.properties p) = Sample.clock j)
      (matched Fixture.assignments (getExistingAssignments Fixture.rows)) u.
Proof.
  eexists _, _, _. split; [reflexivity |]. split; [reflexivity |].
  apply (reconcile_clock_readings Sample.clock Fixture.assignments
           (getExistingAssignments Fixture.rows) 0%nat 2%nat).
  reflexivity.
Defined.

Lemma due_date_defaults_to_now_witness :
  let P := fun s : string => String.leb "2024-03-01T08:59:59.000Z" s = true in
  Assignment.due_at Sample.hw3 = None /\
  (forall j, (0 <= j)%nat -> P (Sample.clock j)) /\
  exists p u,
    assignmentToNewPage Sample.clock Sample.hw3 0%nat = Ok (p, 1%nat) /\
    NewPage.Due_Date p = Sample.clock 0%nat /\ P (NewPage.Due_Date p) /\
    assignmentToUpdatedPage Sample.clock (Sample.hw3, "p3") 0%nat = Ok (u, 1%nat) /\
    UpdatedPage.Due_Date (UpdatedPage.properties u) = Sample.clock 0%nat /\
    P (UpdatedPage.Due_Date (UpdatedPage.properties u)).
Proof.
  intros P.
  assert (Hdue : Assignment.due_at Sample.hw3 = None) by reflexivity.
  assert (Hclock : forall j, (0 <= j)%nat -> P (Sample.clock j))
    by (intros j _; reflexivity).
  split; [exact Hdue |]. split; [exact Hclock |].
  destruct (due_date_defaults_to_now Sample.clock P) as [Hcall _].
  exact (Hcall Sample.hw3 "p3" 0%nat Hdue Hclock).
Defined.

Lemma reconcile_creates_once_witness :
  let A := [Sample.hw1; Sample.hw1_again; Sample.hw3] in
  let E := getExistingAssignments [Sample.page_p1] in
  (forall i,
      ~ known E i ->
      (length
         (List.filter
            (fun a => bool_decide
                        (Assignment.name a <> Some "SYS_EXCEPTION_GRADE"
                         /\ Assignment.id a = i)) A) <= 1)%nat) /\
  exists c u k',
    reconcile Sample.clock A E 0%nat = Ok ((c, u), k') /\
    length u = 2%nat /\
    (forall i, known E i -> ~ In i (List.map NewPage.Assignment_Id c)) /\
    List.NoDup (List.map NewPage.Assignment_Id c).
Proof.
  intros A E.
  assert (Honce : forall i,
             ~ known E i ->
             (length
                (List.filter
                   (fun a => bool_decide
                               (Assignment.name a <> Some "SYS_EXCEPTION_GRADE"
                                /\ Assignment.id a = i)) A) <= 1)%nat).
  { intros i Hk.
    assert (Hi : i <> Some 1).
    { intros ->. apply Hk. exists 1. split; [reflexivity | now left]. }
    unfold A. cbn [List.filter].
    rewrite (bool_decide_eq_false_2
               (Assignment.name Sample.hw1 <> Some "SYS_EXCEPTION_GRADE"
                /\ Assignment.id Sample.hw1 = i)) by (intros [_ H]; now apply Hi).
    rewrite (bool_decide_eq_false_2
               (Assignment.name Sample.hw1_again <> Some "SYS_EXCEPTION_GRADE"
                /\ Assignment.id Sample.hw1_again = i))
      by (intros [_ H]; now apply Hi).
    destruct (bool_decide _); simpl; lia. }
  split; [exact Honce |].
  eexists _, _, _. split; [reflexivity |]. split; [reflexivity |].
  eapply (reconcile_creates_once Sample.clock A E 0%nat); [exact Honce |].
  reflexivity.
Defined.

Lemma updates_go_to_rows_of_the_id_witness :
  exists c u k',
    reconcile Sample.clock Fixture.assignments
      (getExistingAssignments Fixture.rows) 0%nat = Ok ((c, u), k') /\
    Forall2
      (fun a p =>
         exists props n,
           Assignment.id a = Some n /\ n <> 0 /\
           In (FullPage (UpdatedPage.page_id p) props) Fixture.rows /\
           props !! "Assignment Id" = Some (PNumber (Some n)))
      (matched Fixture.assignments (getExistingAssignments Fixture.rows)) u.
Proof.
  eexists _, _, _. split; [reflexivity |].
  eapply (updates_go_to_rows_of_the_id Sample.clock Fixture.assignments
            Fixture.rows 0%nat).
  reflexivity.
Defined.

Lemma first_row_wins_witness :
  let props : gmap string PropertyValue := {[ "Assignment Id" := PNumber (Some 1) ]} in
  props !! "Assignment Id" = Some (PNumber (Some 1)) /\
  1 <> 0 /\
  Assignment.id Sample.hw1 = Some 1 /\
  find_existing
    (getExistingAssignments
       ([Sample.page_text] ++ FullPage "p1" props
          :: [PartialPage "p5"; Fixture.row "p2" 1; Fixture.row "p3" 3]))
    Sample.hw1
  = Some {| assignmentId := Number_toString 1; pageId := "p1" |}.
Proof.
  intros props.
  assert (Hprop : props !! "Assignment Id" = Some (PNumber (Some 1))) by reflexivity.
  assert (Hn : 1 <> 0) by discriminate.
  split; [exact Hprop |]. split; [exact Hn |]. split; [reflexivity |].
  apply (first_row_wins [Sample.page_text]
           [PartialPage "p5"; Fixture.row "p2" 1; Fixture.row "p3" 3]
           "p1" props 1 Sample.hw1 Hprop Hn eq_refl).
  intros pid' props' [[= <- <-] | []]. discriminate.
Defined.

Lemma second_run_updates_everything_witness :
  exists c1 u1 k1',
    reconcile Sample.clock Fixture.assignments
      (getExistingAssignments [Sample.page_p1]) 0%nat = Ok ((c1, u1), k1') /\
    length c1 = 1%nat /\
    exists u2 k2',
      reconcile Sample.clock Fixture.assignments
        (getExistingAssignments
           (Sample.page_p1 :: List.map (created_page "p3") c1)) k1'
      = Ok (([], u2), k2') /\
      length u2 = length (List.filter not_sentinel Fixture.assignments).
Proof.
  eexists _, _, _. split; [reflexivity |]. split; [reflexivity |].
  eapply (second_run_updates_everything Sample.clock Fixture.assignments
            [Sample.page_p1] _ 0%nat).
  - reflexivity.
  - intros r [<- | []]. now left.
  - intros p Hp. exists "p3". right. now apply in_map.
  - intros a Ha _ Hid.
    destruct Ha as [<- | [<- | [<- | []]]]; discriminate Hid.
Defined.

(** ** The credential store, further *)

Section CredentialStoreMore.

Variable config : string.

Lemma getter_reads_file (s : Secret) (w : World) (contents : string) :
  files w !! path_join config (secret_file s) = Some contents ->
  getter config s w = (Ok contents, w).
Proof.
  intros H.
  destruct s; simpl in H |- *;
    unfold getNotionKey, getCanvasKey, getCanvasUrl, io_bind;
    rewrite (existsSync_present _ _ _ H); now apply readFileSync_present.
Qed.

Lemma getter_first_run (s : Secret) (w : World) (answer : string)
    (rest : list string) :
  files w !! path_join config (secret_file s) = None ->
  stdin w = answer :: rest ->
  (s = NotionKey -> config ∈ directories w) ->
  getter config s w = (Ok answer, after_store config s answer rest w).
Proof.
  intros Hfile Hin Hdir. destruct s; simpl in Hfile |- *.
  - apply (getNotionKey_first_run config w answer rest Hfile Hin (Hdir eq_refl)).
  - apply (getCanvasKey_first_run config w answer rest Hfile Hin).
  - apply (getCanvasUrl_first_run config w answer rest Hfile Hin).
Qed.

Lemma getter_no_answer (s : Secret) (w : World) :
  files w !! path_join config (secret_file s) = None ->
  stdin w = [] ->
  getter config s w = (Throw PromptRejected, after_question s [] w).
Proof.
  intros Hfile Hin.
  destruct s; simpl in Hfile |- *;
    unfold getNotionKey, getCanvasKey, getCanvasUrl, io_bind;
    rewrite (existsSync_absent _ _ Hfile); unfold prompt; rewrite Hin; reflexivity.
Qed.

Lemma getter_no_directory (w : World) (answer : string) (rest : list string) :
  files w !! path_join config (secret_file NotionKey) = None ->
  stdin w = answer :: rest ->
  config ∉ directories w ->
  getter config NotionKey w = (Throw ENOENT, after_question NotionKey rest w).
Proof.
  intros Hfile Hin Hdir.
  apply (getNotionKey_no_directory config w answer rest Hfile Hin Hdir).
Qed.

(** The four ways a call of a getter can go. *)
Lemma getter_cases (s : Secret) (w : World) :
  (exists contents,
      files w !! path_join config (secret_file s) = Some contents /\
      getter config s w = (Ok contents, w)) \/
  (files w !! path_join config (secret_file s) = None /\ stdin w = [] /\
   getter config s w = (Throw PromptRejected, after_question s [] w)) \/
  (exists answer rest,
      files w !! path_join config (secret_file s) = None /\
      stdin w = answer :: rest /\
      (s = NotionKey -> config ∈ directories w) /\
      getter config s w = (Ok answer, after_store config s answer rest w)) \/
  (exists answer rest,
      files w !! path_join config (secret_file s) = None /\
      stdin w = answer :: rest /\
      s = NotionKey /\ (config ∉ directories w) /\
      getter config s w = (Throw ENOENT, after_question s rest w)).
Proof.
  destruct (files w !! path_join config (secret_file s)) as [contents |] eqn:Hfile.
  { left. exists contents. split; [reflexivity |]. now apply getter_reads_file. }
  right. destruct (stdin w) as [| answer rest] eqn:Hin.
  { left. repeat split. now apply getter_no_answer. }
  right.
  destruct (decide (config ∈ directories w)) as [Hdir | Hdir].
  - left. exists answer, rest. repeat split; try assumption; [auto |].
    now apply getter_first_run.
  - destruct s.
    + right. exists answer, rest. repeat split; try assumption.
      now apply (getter_no_directory w answer rest).
    + left. exists answer, rest. repeat split; try assumption; [discriminate |].
      now apply getter_first_run.
    + left. exists answer, rest. repeat split; try assumption; [discriminate |].
      now apply getter_first_run.
Qed.

Lemma after_store_own (s : Secret) (answer : string) (rest : list string)
    (w : World) :
  files (after_store config s answer rest w) !! path_join config (secret_file s)
  = Some answer.
Proof. unfold after_store; simpl. apply lookup_insert_eq. Qed.

Lemma after_store_files (s : Secret) (answer : string) (rest : list string)
    (w : World) :
  files w !! path_join config (secret_file s) = None ->
  files w ⊆ files (after_store config s answer rest w).
Proof. intros Hfile. unfold after_store; simpl. now apply insert_subseteq. Qed.

Lemma after_store_directory (s : Secret) (answer : string) (rest : list string)
    (w : World) :
  (s = NotionKey -> config ∈ directories w) ->
  config ∈ directories (after_store config s answer rest w).
Proof.
  intros Hdir. unfold after_store; cbn [directories].
  destruct s; [auto | set_solver | set_solver].
Qed.

Lemma after_store_disk_ok (s : Secret) (answer : string) (rest : list string)
    (w : World) :
  disk_ok w ->
  (s = NotionKey -> config ∈ directories w) ->
  disk_ok (after_store config s answer rest w).
Proof.
  intros Hok Hdir dir file.
  destruct (decide ((dir, file) = path_join config (secret_file s))) as [Heq | Hne].
  - intros _. injection Heq as -> _. now apply after_store_directory.
  - unfold after_store; cbn [files directories].
    rewrite lookup_insert_ne by congruence. intros Hf. apply Hok in Hf.
    destruct s; set_solver.
Qed.

(** X10. The cache round trip: once a getter has returned a value, calling
    it again returns the same value, asks nothing and changes nothing. *)
Theorem getter_caches (s : Secret) (w w' : World) (v : string) :
  getter config s w = (Ok v, w') ->
  getter config s w' = (Ok v, w').
Proof.
  intros H.
  destruct (getter_cases s w)
    as [(contents & Hfile & Hget)
       | [(_ & _ & Hget)
         | [(answer & rest & _ & _ & _ & Hget)
           | (answer & rest & _ & _ & _ & _ & Hget)]]];
    rewrite Hget in H; try discriminate; injection H as <- <-.
  - exact Hget.
  - apply getter_reads_file, after_store_own.
Qed.

(** X11. A getter only adds to the disk: the directories stay, every file
    keeps its contents (the file of the secret too, when there is one), and
    no path but the file of the secret is written. *)
Theorem getter_only_adds (s : Secret) (w : World) :
  directories w ⊆ directories (getter config s w).2 /\
  files w ⊆ files (getter config s w).2 /\
  forall path,
    path <> path_join config (secret_file s) ->
    files (getter config s w).2 !! path = files w !! path.
Proof.
  destruct (getter_cases s w)
    as [(contents & Hfile & Hget)
       | [(_ & _ & Hget)
         | [(answer & rest & Hfile & _ & _ & Hget)
           | (answer & rest & _ & _ & _ & _ & Hget)]]];
    rewrite Hget; cbn [snd after_question after_store directories files];
    try (split; [reflexivity | split; [reflexivity | reflexivity]]).
  split; [destruct s; set_solver |].
  split; [now apply insert_subseteq |].
  intros path Hpath. now apply lookup_insert_ne.
Qed.

(** X12. A getter that throws has left the disk as it was.  It throws only
    when there is no line to read at the prompt, or, for the Notion key
    alone, when the configuration directory does not exist. *)
Theorem getter_failure_leaves_disk (s : Secret) (w : World) (e : JsError) :
  (getter config s w).1 = Throw e ->
  directories (getter config s w).2 = directories w /\
  files (getter config s w).2 = files w /\
  files w !! path_join config (secret_file s) = None /\
  ((e = PromptRejected /\ stdin w = []) \/
   (e = ENOENT /\ s = NotionKey /\ config ∉ directories w)).
Proof.
  destruct (getter_cases s w)
    as [(contents & Hfile & Hget)
       | [(Hfile & Hin & Hget)
         | [(answer & rest & _ & _ & _ & Hget)
           | (answer & rest & Hfile & _ & Hs & Hdir & Hget)]]];
    rewrite Hget; cbn [fst snd]; intros [= <-]; auto 10.
Qed.

(** X13. A getter keeps every file of the disk in a directory of the
    disk. *)
Theorem getter_keeps_disk_ok (s : Secret) (w : World) :
  disk_ok w -> disk_ok (getter config s w).2.
Proof.
  intros Hok.
  destruct (getter_cases s w)
    as [(contents & Hfile & Hget)
       | [(_ & _ & Hget)
         | [(answer & rest & Hfile & _ & Hdir & Hget)
           | (answer & rest & _ & _ & _ & _ & Hget)]]];
    rewrite Hget; cbn [snd]; try exact Hok.
  now apply after_store_disk_ok.
Qed.

(** A getter on a disk that is in order: it returns, and the directory is
    there afterwards, or its prompt was rejected. *)
Lemma getter_step (s : Secret) (w : World) :
  disk_ok w ->
  (s = NotionKey -> config ∈ directories w) ->
  (exists v w',
      getter config s w = (Ok v, w') /\
      disk_ok w' /\ config ∈ directories w' /\
      files w' !! path_join config (secret_file s) = Some v /\
      files w ⊆ files w') \/
  (exists w', getter config s w = (Throw PromptRejected, w') /\ stdin w' = []).
Proof.
  intros Hok Hdir.
  destruct (getter_cases s w)
    as [(contents & Hfile & Hget)
       | [(_ & _ & Hget)
         | [(answer & rest & Hfile & _ & _ & Hget)
           | (answer & rest & _ & _ & Hs & Hno & Hget)]]];
    rewrite Hget.
  - left. exists contents, w. repeat split; try assumption; [| reflexivity].
    apply (Hok config (secret_file s)). exists contents. exact Hfile.
  - right. eauto.
  - left. eexists _, _. split; [reflexivity |].
    split; [now apply after_store_disk_ok |].
    split; [now apply after_store_directory |].
    split; [apply after_store_own | now apply after_store_files].
  - exfalso. auto.
Qed.

(** X14. Once [getCanvasKey] or [getCanvasUrl] has returned, on a disk
    whose files are all in directories, the configuration directory exists,
    and a call of [getNotionKey] from then on does not fail at its write: it
    returns, or its prompt is rejected. *)
Theorem notion_key_after_canvas (s : Secret) (w w' : World) (v : string) :
  disk_ok w ->
  s <> NotionKey ->
  getter config s w = (Ok v, w') ->
  config ∈ directories w' /\
  ((exists key w'', getNotionKey config w' = (Ok key, w'')) \/
   (exists w'', getNotionKey config w' = (Throw PromptRejected, w'')
                /\ stdin w' = [])).
Proof.
  intros Hok Hs Hget.
  destruct (getter_step s w Hok) as
    [(v1 & w1 & Hget1 & Hok1 & Hdir1 & _) | (w1 & Hget1 & _)];
    [now intros -> | | congruence].
  rewrite Hget in Hget1. injection Hget1 as -> ->.
  split; [assumption |].
  destruct (getter_cases NotionKey w1)
    as [(contents & _ & Hn)
       | [(_ & Hin & Hn)
         | [(answer & rest & _ & _ & _ & Hn)
           | (answer & rest & _ & _ & _ & Hno & Hn)]]];
    cbn [getter] in Hn; [eauto | eauto | eauto |].
  now contradiction Hno.
Qed.

End CredentialStoreMore.

Lemma getter_caches_witness :
  exists w',
    getter Sample.config CanvasUrl Fixture.half_configured
    = (Ok "https://canvas.example", w') /\
    getter Sample.config CanvasUrl w' = (Ok "https://canvas.example", w').
Proof.
  eexists. split; [reflexivity |].
  apply (getter_caches Sample.config CanvasUrl Fixture.half_configured).
  reflexivity.
Defined.

Lemma getter_failure_leaves_disk_witness :
  (getter Sample.config NotionKey Sample.first_run).1 = Throw ENOENT /\
  directories (getter Sample.config NotionKey Sample.first_run).2
  = directories Sample.first_run /\
  files (getter Sample.config NotionKey Sample.first_run).2
  = files Sample.first_run /\
  files Sample.first_run !! path_join Sample.config (secret_file NotionKey) = None /\
  ((ENOENT = PromptRejected /\ stdin Sample.first_run = []) \/
   (ENOENT = ENOENT /\ NotionKey = NotionKey
    /\ Sample.config ∉ directories Sample.first_run)).
Proof.
  assert (H : (getter Sample.config NotionKey Sample.first_run).1 = Throw ENOENT)
    by reflexivity.
  split; [exact H |].
  exact (getter_failure_leaves_disk Sample.config NotionKey Sample.first_run ENOENT H).
Defined.

Lemma half_configured_ok : disk_ok Fixture.half_configured.
Proof.
  intros dir file [contents Hfile].
  unfold Fixture.half_configured in *; cbn [files directories] in *.
  apply lookup_singleton_Some in Hfile as [[= <- _] _].
  apply elem_of_singleton. reflexivity.
Defined.

Lemma getter_keeps_disk_ok_witness :
  disk_ok Fixture.half_configured /\
  disk_ok (getter Sample.config CanvasUrl Fixture.half_configured).2.
Proof.
  split; [exact half_configured_ok |].
  exact (getter_keeps_disk_ok Sample.config CanvasUrl Fixture.half_configured
           half_configured_ok).
Defined.

Lemma notion_key_after_canvas_witness :
  disk_ok Fixture.half_configured /\
  CanvasUrl <> NotionKey /\
  exists w',
    getter Sample.config CanvasUrl Fixture.half_configured
    = (Ok "https://canvas.example", w') /\
    Sample.config ∈ directories w' /\
    ((exists key w'', getNotionKey Sample.config w' = (Ok key, w'')) \/
     (exists w'', getNotionKey Sample.config w' = (Throw PromptRejected, w'')
                  /\ stdin w' = [])).
Proof.
  assert (Hs : CanvasUrl <> NotionKey) by discriminate.
  split; [exact half_configured_ok |]. split; [exact Hs |].
  eexists. split; [reflexivity |].
  apply (notion_key_after_canvas Sample.config CanvasUrl Fixture.half_configured
           _ "https://canvas.example" half_configured_ok Hs).
  reflexivity.
Defined.

(** ** The choices of the selectors *)





Example selectors_samples :
  database_options Fixture.search_results
  = Ok [Choice.mk "Homework" "db1"; Choice.mk "Exams" "db2"; create_new_database]
  /\ database_options (DatabaseResult "db3" [] :: Fixture.search_results)
     = Throw TypeError
  /\ database_options [] = Ok [create_new_database]
  /\ page_options Fixture.search_results = Ok [Choice.mk "Notes" "pg1"]
  /\ page_options [PageResult "pg2" {[ "Name" := SPOther; "title" := SPTitle ["T"] ]}]
     = Ok [Choice.mk "Untitled" "pg2"]
  /\ page_options [PageResult "pg3" {[ "title" := SPTitle [] ]}] = Throw TypeError.
Proof. repeat split; reflexivity. Qed.

(** ** [getAssignments] *)

Lemma Promise_all_outcome {X} (promises : list (option X)) :
  match Promise_all promises with
  | Some values => promises = List.map Some values
  | None => In None promises
  end.
Proof.
  induction promises as [| [x |] l IH]; simpl; [reflexivity | | now left].
  destruct (Promise_all l) as [xs |]; [now rewrite IH | now right].
Qed.

(** X17. [getAssignments] is all or nothing: when the listing of every
    selected course fulfils, it gives the assignments of the courses, course
    after course in the order of the selection; when the listing of one of
    them rejects, it rejects. *)
Theorem getAssignments_outcome
    (listAssignmentsAssignments : string -> option (list Assignment.t))
    (courses : list string) :
  match getAssignments listAssignmentsAssignments courses with
  | Some assignments =>
      exists courseAssignments,
        Forall2 (fun course l => listAssignmentsAssignments course = Some l)
                courses courseAssignments /\
        assignments = List.concat courseAssignments
  | None =>
      Exists (fun course => listAssignmentsAssignments course = None) courses
  end.
Proof.
  unfold getAssignments.
  pose proof (Promise_all_outcome (List.map listAssignmentsAssignments courses)) as H.
  destruct (Promise_all (List.map listAssignmentsAssignments courses)) as [ls |].
  - exists ls. split; [| reflexivity].
    revert ls H. induction courses as [| c cs IH]; intros [| l ls] H;
      simpl in H; try discriminate; [constructor |].
    injection H as Hc Hcs. constructor; [assumption | now apply IH].
  - apply in_map_iff in H as (c & Hc & Hin).
    apply List.Exists_exists. eauto.
Qed.

Example getAssignments_samples :
  getAssignments Fixture.listing ["7"; "8"]
  = Some [Sample.hw1; Sample.hw3; Sample.quiz]
  /\ getAssignments Fixture.listing ["7"; "9"; "8"] = None
  /\ getAssignments Fixture.listing [] = Some [].
Proof. repeat split; reflexivity. Qed.
